(** * oVirt REST API client: token (SSO) and cookie (persistent-auth) variants

    A shallow embedding of the two Go clients of the repository:

    - [Token]  : package [api], type [Client], bearer token obtained from the
                 SSO endpoint, one-shot re-authentication on 401;
    - [Cookie] : package [ovirt_api], type [ApiClient], HTTP Basic
                 authentication with a persistent-auth session cookie.

    Go's [error] results are a sum type, the mutable client and the HTTP
    exchange are threaded through a small state-and-error monad.  Functions
    of Go's standard library that the clients call ([http.NewRequest],
    [http.Client.Do], [url.Values.Encode], [json.Unmarshal], [xml.Unmarshal],
    the Basic-auth encoding) are fields of the classes [GoRuntime] and
    [XMLDecoder]; everything of the repository itself is defined here. *)

From Stdlib Require Import ZArith Ascii.
From stdpp Require Import base option list strings gmap.

Open Scope string_scope.
Open Scope Z_scope.

(** ** Strings: the functions of Go's package [strings] used by the clients *)

(** [strings.ContainsRune(cutset, c)] for the one-byte characters of the
    cutsets used here. *)
Fixpoint cutset_mem (c : ascii) (cutset : string) : bool :=
  match cutset with
  | EmptyString => false
  | String d rest => if Ascii.eqb c d then true else cutset_mem c rest
  end.

(** [strings.TrimLeft(s, cutset)]: drops every leading character of [s] that
    occurs in [cutset]. *)
Fixpoint TrimLeft (s cutset : string) : string :=
  match s with
  | EmptyString => EmptyString
  | String c s' => if cutset_mem c cutset then TrimLeft s' cutset else s
  end.

(** [strings.TrimRight(s, cutset)]: drops every trailing character of [s]
    that occurs in [cutset].  The second argument is a set of characters,
    not a suffix. *)
Fixpoint TrimRight (s cutset : string) : string :=
  match s with
  | EmptyString => EmptyString
  | String c s' =>
      match TrimRight s' cutset with
      | EmptyString => if cutset_mem c cutset then EmptyString else String c EmptyString
      | String d r => String c (String d r)
      end
  end.

(** [strings.Trim(s, cutset)]. *)
Definition Trim (s cutset : string) : string :=
  TrimLeft (TrimRight s cutset) cutset.

(** [strings.Split(s, sep)] for a one-character separator. *)
Fixpoint Split (s : string) (sep : ascii) : list string :=
  match s with
  | EmptyString => [EmptyString]
  | String c s' =>
      if Ascii.eqb c sep then EmptyString :: Split s' sep
      else match Split s' sep with
           | x :: xs => String c x :: xs
           | [] => [String c EmptyString]
           end
  end.

(** [n] copies of the character ['/']. *)
Fixpoint slashes (n : nat) : string :=
  match n with
  | O => EmptyString
  | S k => String "/" (slashes k)
  end.

(** The last character of a string, if any. *)
Fixpoint last_char (s : string) : option ascii :=
  match s with
  | EmptyString => None
  | String c EmptyString => Some c
  | String _ s' => last_char s'
  end.

(** The first character of a string, if any. *)
Definition first_char (s : string) : option ascii :=
  match s with
  | EmptyString => None
  | String c _ => Some c
  end.

(** Whether every character of [t] occurs in [cutset]. *)
Fixpoint all_in_cutset (t cutset : string) : bool :=
  match t with
  | EmptyString => true
  | String c t' => cutset_mem c cutset && all_in_cutset t' cutset
  end.

(** ** Errors

    A Go [error] value, tagged by the call that produced it. *)
Inductive error : Type :=
| NewRequestError (msg : string)   (* returned by http.NewRequest *)
| TransportError (msg : string)    (* returned by http.Client.Do *)
| ReadError (msg : string)         (* returned by io.ReadAll / ioutil.ReadAll *)
| JSONError (msg : string)         (* returned by json.Unmarshal *)
| XMLError (msg : string)          (* returned by xml.Unmarshal *)
| ErrorsNew (text : string)        (* errors.New(text) *)
| Errorf (format : string).        (* fmt.Errorf(format), no arguments *)

(** The spec's error kinds. *)
Definition is_RequestError (e : error) : bool :=
  match e with Errorf _ => true | _ => false end.


(** ** HTTP data *)

(** [http.Header] and [url.Values] are both [map[string][]string].  The
    header names the clients use are already in canonical form, so the
    canonicalisation that [Header.Get], [Set] and [Add] apply to their key
    is the identity on them. *)
Definition Header_Add (k v : string) (h : gmap string (list string))
  : gmap string (list string) :=
  <[k := (default [] (h !! k) ++ [v])%list]> h.

Definition Header_Set (k v : string) (h : gmap string (list string))
  : gmap string (list string) :=
  <[k := [v]]> h.

Definition Header_Get (k : string) (h : gmap string (list string)) : string :=
  match h !! k with
  | Some (v :: _) => v
  | _ => EmptyString
  end.

Definition Values_Set (k v : string) (vs : gmap string (list string))
  : gmap string (list string) :=
  <[k := [v]]> vs.

(** An [io.Reader] handed to [http.NewRequest]: either the reader built by
    [strings.NewReader], or a reader supplied by the caller, known by its
    identity only (its stream position is not modelled). *)
Inductive Reader : Type :=
| strings_NewReader (s : string)
| caller_Reader (id : nat).

Record Request : Type := mkRequest {
  Method : string;
  URL : string;
  ReqHeader : gmap string (list string);
  ReqBody : option Reader
}.

Record Response : Type := mkResponse {
  Status : string;                         (* e.g. "401 Unauthorized" *)
  StatusCode : Z;
  RespHeader : gmap string (list string);
  RespBody : string + list Byte.byte       (* what reading the body to its end gives *)
}.

(** [http.Client] with the one setting the clients touch. *)
Record http_Client : Type := mkHttpClient {
  InsecureSkipVerify : bool
}.

(** The [Logger] interface value held by a client. *)
Inductive Logger : Type :=
| defaultLogger
| customLogger (id : nat).

(** SSO server response json. *)
Record ssoResponseJSON : Type := mkSso {
  AccessToken : string;
  SsoError : string;
  SsoErrorCode : string
}.

(** ** The runtime the clients run against *)
Class GoRuntime : Type := {
  (** the error, if any, with which [http.NewRequest(method, url, _)]
      rejects its method or URL *)
  NewRequest_err : string -> string -> option string;
  (** [client.Do(req)]: the server's answer, which may depend on the
      requests issued before *)
  RoundTrip : http_Client -> list Request -> Request -> string + Response;
  (** [url.Values.Encode] *)
  Values_Encode : gmap string (list string) -> string;
  (** [json.Unmarshal(body, &ssoResp)] on a zero [ssoResponseJSON] *)
  json_Unmarshal : list Byte.byte -> string + ssoResponseJSON;
  (** the value [SetBasicAuth(user, pass)] gives the Authorization header *)
  basicAuth : string -> string -> string
}.

(** [xml.Unmarshal(b, res)] for targets of type [T]: the error, if any, and
    the target afterwards. *)
Class XMLDecoder (T : Type) : Type := {
  xml_Unmarshal : list Byte.byte -> T -> option string * T
}.

(** What the outside has seen of a run: the requests handed to
    [client.Do], oldest first, and how many times [Auth] was entered. *)
Record World : Type := mkWorld {
  issued : list Request;
  auths : nat
}.

(** ** State and error monad

    [M C A]: a computation over a client of type [C] and the world, ending
    in an error or a value of type [A].  An error keeps the state reached
    so far, as a Go [return err] does. *)
Definition M (C A : Type) : Type := C -> World -> (error + A) * C * World.

Definition ret {C A} (a : A) : M C A := fun c w => (inr a, c, w).

Definition throw {C A} (e : error) : M C A := fun c w => (inl e, c, w).

Definition bind {C A B} (m : M C A) (k : A -> M C B) : M C B :=
  fun c w =>
    match m c w with
    | (inl e, c', w') => (inl e, c', w')
    | (inr a, c', w') => k a c' w'
    end.

Declare Scope go_scope.
Delimit Scope go_scope with go.
Notation "x <- m ;; k" := (bind m (fun x => k))
  (at level 100, m at next level, right associativity) : go_scope.
Notation "m ;; k" := (bind m (fun _ => k))
  (at level 100, right associativity) : go_scope.

(** Reads the client. *)
Definition self {C} : M C C := fun c w => (inr c, c, w).

(** Assigns to the client. *)
Definition assign {C} (f : C -> C) : M C unit := fun c w => (inr tt, f c, w).

(** Runs [m] and hands its error to the caller as a value
    ([err := m(); if err == nil ...]). *)
Definition attempt {C A} (m : M C A) : M C (option error) :=
  fun c w =>
    match m c w with
    | (inl e, c', w') => (inr (Some e), c', w')
    | (inr _, c', w') => (inr None, c', w')
    end.

(** Counts an entry into [Auth]. *)
Definition enter_Auth {C} : M C unit :=
  fun c w => (inr tt, c, mkWorld (issued w) (S (auths w))).

(** The method [http.NewRequest] gives the request it builds: the empty
    method stands for GET. *)
Definition request_method (method : string) : string :=
  if String.eqb method "" then "GET" else method.

Section Runtime.
Context `{GoRuntime}.

(** [http.NewRequest(method, url, body)]. *)
Definition http_NewRequest {C} (method url : string) (body : option Reader)
  : M C Request :=
  match NewRequest_err method url with
  | Some msg => throw (NewRequestError msg)
  | None => ret (mkRequest (request_method method) url ∅ body)
  end.

(** [hc.Do(req)]. *)
Definition Do {C} (hc : http_Client) (req : Request) : M C Response :=
  fun c w =>
    let w' := mkWorld (issued w ++ [req])%list (auths w) in
    match RoundTrip hc (issued w) req with
    | inl msg => (inl (TransportError msg), c, w')
    | inr resp => (inr resp, c, w')
    end.

(** [io.ReadAll(resp.Body)]. *)
Definition ReadAll {C} (resp : Response) : M C (list Byte.byte) :=
  match RespBody resp with
  | inl msg => throw (ReadError msg)
  | inr b => ret b
  end.
End Runtime.

(** [req.Header.Set] / [req.Header.Add] on a request. *)
Definition req_Header_Set (k v : string) (r : Request) : Request :=
  mkRequest (Method r) (URL r) (Header_Set k v (ReqHeader r)) (ReqBody r).

Definition req_Header_Add (k v : string) (r : Request) : Request :=
  mkRequest (Method r) (URL r) (Header_Add k v (ReqHeader r)) (ReqBody r).

(** Logging ([c.logger.Debugf], [log.Println]) only writes to the logger and
    returns nothing the clients look at; it is left out of the embedding. *)

(** ** The token-strategy client (package [api]) *)
Module Token.

(** Client encapsulates communication with the oVirt REST API. *)
Record Client : Type := mkClient {
  url : string;
  username : string;
  password : string;
  logger : Logger;
  debug : bool;
  accessToken : string;
  client : http_Client
}.

Definition set_accessToken (t : string) (c : Client) : Client :=
  mkClient (url c) (username c) (password c) (logger c) (debug c) t (client c).

(** ClientOption applies options to Client. *)
Definition ClientOption : Type := Client -> Client.

Definition WithInsecure : ClientOption := fun c =>
  mkClient (url c) (username c) (password c) (logger c) (debug c)
           (accessToken c) (mkHttpClient true).

Definition WithLogger (l : Logger) : ClientOption := fun c =>
  mkClient (url c) (username c) (password c) l (debug c)
           (accessToken c) (client c).

Definition WithDebug : ClientOption := fun c =>
  mkClient (url c) (username c) (password c) (logger c) true
           (accessToken c) (client c).

(** An option built by [WithInsecure], [WithDebug] or [WithLogger]. *)
Definition built_option (o : ClientOption) : Prop :=
  o = WithInsecure \/ o = WithDebug \/ exists l, o = WithLogger l.

(** The form [Auth] posts. *)
Definition auth_payload (c : Client) : gmap string (list string) :=
  Values_Set "password" (password c)
    (Values_Set "username" (username c)
       (Values_Set "scope" "ovirt-app-api"
          (Values_Set "grant_type" "password" ∅))).

(** [authURL] of [Auth]. *)
Definition authURL (c : Client) : string :=
  TrimRight (url c) "/api/" +:+ "/sso/oauth/token".

(** The request URI of [sendRequest]. *)
Definition request_uri (base path : string) : string :=
  Trim base "/" +:+ "/" +:+ Trim path "/".

Section Ops.
Context `{GoRuntime}.
Local Open Scope go_scope.

(** The request [Auth] hands to [client.Do]. *)
Definition auth_request (c : Client) : Request :=
  req_Header_Set "Accept" "application/json"
    (req_Header_Set "Content-Type" "application/x-www-form-urlencoded"
       (mkRequest "POST" (authURL c) ∅
          (Some (strings_NewReader (Values_Encode (auth_payload c)))))).

(** Auth establishes a SSO session with oVirt API. *)
Definition Auth : M Client unit :=
  enter_Auth ;;
  c <- self ;;
  let payload := auth_payload c in
  let params := strings_NewReader (Values_Encode payload) in
  req <- http_NewRequest "POST" (authURL c) (Some params) ;;
  let req := req_Header_Set "Content-Type" "application/x-www-form-urlencoded" req in
  let req := req_Header_Set "Accept" "application/json" req in
  resp <- Do (client c) req ;;
  body <- ReadAll resp ;;
  ssoResp <- match json_Unmarshal body with
             | inl msg => throw (JSONError msg)
             | inr r => ret r
             end ;;
  if negb (String.eqb (SsoError ssoResp) "") then
    throw (ErrorsNew (SsoError ssoResp))
  else if negb (StatusCode resp =? 200) then
    throw (ErrorsNew (Status resp))
  else
    assign (set_accessToken (AccessToken ssoResp)) ;;
    ret tt.

(** The request [sendRequest] hands to [client.Do]. *)
Definition api_request (c : Client) (path method : string)
           (body : option Reader) : Request :=
  req_Header_Set "Authorization" ("Bearer " +:+ accessToken c)
    (req_Header_Set "Accept" "application/xml"
       (req_Header_Add "Content-Type" "application/xml"
          (mkRequest (request_method method) (request_uri (url c) path) ∅ body))).

(** The end of [sendRequest], from the status check on. *)
Definition finish (resp : Response) : M Client (list Byte.byte) :=
  if 300 <=? StatusCode resp then
    throw (Errorf (Status resp))
  else
    b <- ReadAll resp ;;
    ret b.

(** The body of [sendRequest], with [recur] for its recursive call. *)
Definition sendRequest_body
           (recur : string -> string -> option Reader -> bool -> M Client (list Byte.byte))
           (path method : string) (body : option Reader) (reauth : bool)
  : M Client (list Byte.byte) :=
  c <- self ;;
  let uri := Trim (url c) "/" +:+ "/" +:+ Trim path "/" in
  req <- http_NewRequest method uri body ;;
  let req := req_Header_Add "Content-Type" "application/xml" req in
  let req := req_Header_Set "Accept" "application/xml" req in
  let req := req_Header_Set "Authorization" ("Bearer " +:+ accessToken c) req in
  resp <- Do (client c) req ;;
  if (StatusCode resp =? 401) && reauth then
    err <- attempt Auth ;;
    match err with
    | None => recur path method body false
    | Some _ => finish resp
    end
  else
    finish resp.

(** The recursive call of [sendRequest] passes [reauth = false], and a
    call with [reauth = false] makes no recursive call: two unfoldings
    of the body are the whole function ([sendRequest_unfold] below
    proves the recursive equation of the source). *)
Definition sendRequest (path method : string) (body : option Reader)
           (reauth : bool) : M Client (list Byte.byte) :=
  sendRequest_body
    (sendRequest_body (fun _ _ _ _ => throw (ErrorsNew "unreachable")))
    path method body reauth.

(** SendRequest sends a request to the API. *)
Definition SendRequest (path method : string) (body : option Reader)
  : M Client (list Byte.byte) :=
  sendRequest path method body true.

(** Get retrieves XML data from the API and returns it. *)
Definition Get (path : string) : M Client (list Byte.byte) :=
  SendRequest path "GET" None.

(** The request [Close] hands to [client.Do]. *)
Definition close_request (c : Client) : Request :=
  req_Header_Set "Authorization" (basicAuth (username c) (password c))
    (mkRequest "HEAD" (url c) ∅ None).

(** Close terminates the SSO session with the API.  It returns nothing:
    the error of [http.NewRequest] ends it, the result of [client.Do] is
    dropped. *)
Definition Close : Client -> World -> Client * World :=
  fun c w =>
    let '(_, c', w') :=
      (req <- http_NewRequest "HEAD" (url c) None ;;
       let req := req_Header_Set "Authorization"
                                 (basicAuth (username c) (password c)) req in
       Do (client c) req) c w in
    (c', w').

(** SendAndParse sends a request to the API and unmarshalls the
    response: the error returned, and the target afterwards. *)
Definition SendAndParse {T} `{XMLDecoder T} (path method : string) (res : T)
           (body : option Reader)
  : Client -> World -> (option error * T) * Client * World :=
  fun c w =>
    match SendRequest path method body c w with
    | (inl err, c', w') => ((Some err, res), c', w')
    | (inr b, c', w') =>
        let '(e, res') := xml_Unmarshal b res in
        ((option_map XMLError e, res'), c', w')
    end.

(** GetAndParse retrieves XML data from the API and unmarshals it. *)
Definition GetAndParse {T} `{XMLDecoder T} (path : string) (v : T)
  : Client -> World -> (option error * T) * Client * World :=
  SendAndParse path "GET" v None.

(** NewClient returns a new client: the pair (client pointer, error)
    of the source, [None] for [nil]. *)
Definition NewClient (url username password : string) (opts : list ClientOption)
  : World -> (option Client * option error) * World :=
  fun w =>
    let client0 := mkClient url username password defaultLogger false
                            EmptyString (mkHttpClient false) in
    let client1 := fold_left (fun c o => o c) opts client0 in
    match Auth client1 w with
    | (inl err, _, w') => ((None, Some err), w')
    | (inr _, client2, w') => ((Some client2, None), w')
    end.
End Ops.
End Token.

(** ** The cookie-strategy client (package [ovirt_api]) *)
Module Cookie.

(** ApiClient encapsulates communication with the oVirt REST API. *)
Record ApiClient : Type := mkApiClient {
  Url : string;
  Username : string;
  Password : string;
  Logger : Logger;
  Debug : bool;
  cookie : string;
  client : http_Client
}.

Definition set_cookie (v : string) (c : ApiClient) : ApiClient :=
  mkApiClient (Url c) (Username c) (Password c) (Logger c) (Debug c) v (client c).

(** The request URI of [SendRequest]. *)
Definition request_uri (base path : string) : string :=
  Trim base "/" +:+ "/" +:+ Trim path "/".

Section Ops.
Context `{GoRuntime}.
Local Open Scope go_scope.

(** The request [Auth] hands to [client.Do]. *)
Definition auth_request (c : ApiClient) : Request :=
  req_Header_Set "Prefer" "persistent-auth"
    (req_Header_Set "Authorization" (basicAuth (Username c) (Password c))
       (mkRequest "HEAD" (Url c) ∅ None)).

Definition Auth : M ApiClient unit :=
  enter_Auth ;;
  c <- self ;;
  req <- http_NewRequest "HEAD" (Url c) None ;;
  let req := req_Header_Set "Authorization" (basicAuth (Username c) (Password c)) req in
  let req := req_Header_Set "Prefer" "persistent-auth" req in
  resp <- Do (client c) req ;;
  if negb (StatusCode resp =? 200) then
    throw (ErrorsNew (Status resp))
  else
    (* [strings.Split] with a non-empty separator never returns an
       empty slice ([Split_nonempty]), so index 0 is in range *)
    assign (set_cookie
              (default EmptyString
                 (Split (Header_Get "Set-Cookie" (RespHeader resp)) ";" !! 0%nat))) ;;
    ret tt.

(** The request [SendRequest] hands to [client.Do]. *)
Definition api_request (c : ApiClient) (path method : string)
           (body : option Reader) : Request :=
  req_Header_Set "Cookie" (cookie c)
    (req_Header_Set "Prefer" "persistent-auth"
       (req_Header_Add "Content-Type" "application/xml"
          (mkRequest (request_method method) (request_uri (Url c) path) ∅ body))).

Definition SendRequest (path method : string) (body : option Reader)
  : M ApiClient (list Byte.byte) :=
  c <- self ;;
  let uri := Trim (Url c) "/" +:+ "/" +:+ Trim path "/" in
  req <- http_NewRequest method uri body ;;
  let req := req_Header_Add "Content-Type" "application/xml" req in
  let req := req_Header_Set "Prefer" "persistent-auth" req in
  let req := req_Header_Set "Cookie" (cookie c) req in
  resp <- Do (client c) req ;;
  if 300 <=? StatusCode resp then
    throw (Errorf (Status resp))
  else
    b <- ReadAll resp ;;
    ret b.

(** Get retrieves XML data from the API and returns it. *)
Definition Get (path : string) : M ApiClient (list Byte.byte) :=
  SendRequest path "GET" None.

(** The request [Close] hands to [client.Do]. *)
Definition close_request (c : ApiClient) : Request :=
  req_Header_Set "Authorization" (basicAuth (Username c) (Password c))
    (mkRequest "HEAD" (Url c) ∅ None).

(** [Close] returns nothing: the error of [http.NewRequest] ends it, the
    result of [client.Do] is dropped. *)
Definition Close : ApiClient -> World -> ApiClient * World :=
  fun c w =>
    let '(_, c', w') :=
      (req <- http_NewRequest "HEAD" (Url c) None ;;
       let req := req_Header_Set "Authorization"
                                 (basicAuth (Username c) (Password c)) req in
       Do (client c) req) c w in
    (c', w').

Definition SendAndParse {T} `{XMLDecoder T} (path method : string) (res : T)
           (body : option Reader)
  : ApiClient -> World -> (option error * T) * ApiClient * World :=
  fun c w =>
    match SendRequest path method body c w with
    | (inl err, c', w') => ((Some err, res), c', w')
    | (inr b, c', w') =>
        let '(e, res') := xml_Unmarshal b res in
        ((option_map XMLError e, res'), c', w')
    end.

(** GetAndParse retrieves XML data from the API and unmarshals it. *)
Definition GetAndParse {T} `{XMLDecoder T} (path : string) (v : T)
  : ApiClient -> World -> (option error * T) * ApiClient * World :=
  SendAndParse path "GET" v None.

(** NewClient returns a new client: the pair (client pointer, error)
    of the source, [None] for [nil]. *)
Definition NewClient (url username password : string) (insecureCert : bool)
  : World -> (option ApiClient * option error) * World :=
  fun w =>
    let client0 := mkApiClient url username password defaultLogger false
                               EmptyString (mkHttpClient insecureCert) in
    match Auth client0 w with
    | (inl err, _, w') => ((None, Some err), w')
    | (inr _, client1, w') => ((Some client1, None), w')
    end.
End Ops.
End Cookie.

(** ** Go's [strings.TrimSuffix], for comparison with [TrimRight] *)

(** [strings.HasSuffix(s, suffix)]. *)
Fixpoint HasSuffix (s suffix : string) : bool :=
  if String.eqb s suffix then true
  else match s with
       | EmptyString => false
       | String _ s' => HasSuffix s' suffix
       end.

(** [strings.TrimSuffix(s, suffix)]: [s] without the trailing [suffix]
    string, or [s] itself when it does not end with [suffix]. *)
Fixpoint TrimSuffix (s suffix : string) : string :=
  if String.eqb s suffix then EmptyString
  else match s with
       | EmptyString => EmptyString
       | String c s' => if HasSuffix s' suffix then String c (TrimSuffix s' suffix) else s
       end.

(** ** Scripted runtimes, for running the clients on concrete exchanges *)

Definition resp_200 (header : gmap string (list string)) (body : string) : Response :=
  mkResponse "200 OK" 200 header (inr (String.list_byte_of_string body)).

Definition resp_401 : Response :=
  mkResponse "401 Unauthorized" 401 ∅ (inr (String.list_byte_of_string "denied")).

(** The runtime that answers the k-th request handed to it with the k-th
    entry of [script], accepts every method and URL, and decodes every
    SSO body to [sso]. *)
Definition scripted (script : list (string + Response))
           (sso : string + ssoResponseJSON) : GoRuntime :=
  {| NewRequest_err := fun _ _ => None;
     RoundTrip := fun _ hist _ =>
       default (inl "connection refused") (script !! length hist);
     Values_Encode := fun vs =>
       "grant_type=" +:+ Header_Get "grant_type" vs
       +:+ "&password=" +:+ Header_Get "password" vs
       +:+ "&scope=" +:+ Header_Get "scope" vs
       +:+ "&username=" +:+ Header_Get "username" vs;
     json_Unmarshal := fun _ => sso;
     basicAuth := fun u p => "Basic " +:+ u +:+ ":" +:+ p |}.

Definition world0 : World := mkWorld [] 0.

Definition token_client0 : Token.Client :=
  Token.mkClient "https://engine.example.com/ovirt-engine/api/" "admin@internal"
                 "secret" defaultLogger false "tok-1" (mkHttpClient false).

Definition cookie_client0 : Cookie.ApiClient :=
  Cookie.mkApiClient "https://engine.example.com/ovirt-engine/api/" "admin@internal"
                     "secret" defaultLogger false "JSESSIONID=abc" (mkHttpClient false).

Definition sso_ok : string + ssoResponseJSON := inr (mkSso "tok-2" "" "").

Definition sso_denied : string + ssoResponseJSON :=
  inr (mkSso "" "access_denied" "access_denied").

(** 401, then a successful SSO exchange, then 200. *)
Definition rt_401_auth_200 : GoRuntime :=
  scripted [inr resp_401; inr (resp_200 ∅ "{}"); inr (resp_200 ∅ "<vms/>")] sso_ok.

(** 401, then a successful SSO exchange, then 401 again. *)
Definition rt_401_auth_401 : GoRuntime :=
  scripted [inr resp_401; inr (resp_200 ∅ "{}"); inr resp_401] sso_ok.

(** 401, then an SSO exchange the server refuses. *)
Definition rt_401_denied : GoRuntime :=
  scripted [inr resp_401; inr resp_401] sso_denied.

(** An authentication exchange the server refuses. *)
Definition rt_denied : GoRuntime := scripted [inr resp_401] sso_denied.

(** A successful authentication exchange followed by a 200. *)
Definition rt_auth_200 : GoRuntime :=
  scripted [inr (resp_200 {["Set-Cookie" := ["JSESSIONID=xyz; Path=/; HttpOnly"]]} "{}");
            inr (resp_200 ∅ "<vms/>")] sso_ok.

(** A 200 authentication answer that carries no credential: no
    [Set-Cookie] header, and the JSON object [{}]. *)
Definition rt_auth_empty : GoRuntime :=
  scripted [inr (resp_200 ∅ "{}")] (inr (mkSso "" "" "")).

Definition resp_status (code : Z) (status body : string) : Response :=
  mkResponse status code ∅ (inr (String.list_byte_of_string body)).

(** A 403 answer. *)
Definition rt_403 : GoRuntime :=
  scripted [inr (resp_status 403 "403 Forbidden" "denied")] sso_ok.

(** A transport that fails on the first request. *)
Definition rt_down : GoRuntime := scripted [] sso_ok.

(** A 500 answer whose body is an HTML page, not JSON. *)
Definition rt_500_html : GoRuntime :=
  scripted [inr (resp_status 500 "500 Internal Server Error" "<html/>")]
           (inl "invalid character '<' looking for beginning of value").

(** A 200 answer with two [Set-Cookie] header values whose body cannot
    be read. *)
Definition rt_200_unreadable : GoRuntime :=
  scripted [inr (mkResponse "200 OK" 200
                            {["Set-Cookie" := ["JSESSIONID=xyz; Path=/"; "lang=en"]]}
                            (inl "unexpected EOF"));
            inr (resp_200 ∅ "<vms/>")] sso_ok.

(** A runtime whose [http.NewRequest] rejects every URL. *)
Definition rt_bad_url : GoRuntime :=
  {| NewRequest_err := fun _ _ => Some "invalid URL";
     RoundTrip := fun _ _ _ => inl "connection refused";
     Values_Encode := fun _ => EmptyString;
     json_Unmarshal := fun _ => inl "unexpected end of JSON input";
     basicAuth := fun u p => "Basic " +:+ u +:+ ":" +:+ p |}.

(** An XML decoder for string targets that accepts the one body
    ["<vms/>"] and rejects everything else. *)
Definition vms_decoder : XMLDecoder string :=
  {| xml_Unmarshal := fun b res =>
       if String.eqb (String.string_of_list_byte b) "<vms/>" then (None, "vms")
       else (Some "EOF", res) |}.




(** * Properties *)

(** ** Trimming *)

Lemma string_app_assoc (a b c : string) : (a +:+ b) +:+ c = a +:+ (b +:+ c).
Proof. induction a as [|x a IH]; [reflexivity|]. exact (f_equal (String x) IH). Qed.

Lemma TrimLeft_slashes_app (n : nat) (s : string) :
  TrimLeft (slashes n +:+ s) "/" = TrimLeft s "/".
Proof. induction n as [|n IH]; simpl; auto. Qed.

Lemma TrimRight_slashes (m : nat) : TrimRight (slashes m) "/" = EmptyString.
Proof. induction m as [|m IH]; simpl; [reflexivity | now rewrite IH]. Qed.

Lemma TrimRight_app_slashes (s : string) (m : nat) :
  TrimRight (s +:+ slashes m) "/" = TrimRight s "/".
Proof.
  induction s as [|c s IH]; simpl.
  - apply TrimRight_slashes.
  - now rewrite IH.
Qed.

Lemma TrimLeft_TrimRight_slash_cons (s : string) :
  TrimLeft (TrimRight (String "/" s) "/") "/" = TrimLeft (TrimRight s "/") "/".
Proof. simpl. destruct (TrimRight s "/"); reflexivity. Qed.

Lemma Trim_slashes_app (n : nat) (s : string) :
  Trim (slashes n +:+ s) "/" = Trim s "/".
Proof.
  unfold Trim. induction n as [|n IH]; [reflexivity|].
  change (slashes (S n) +:+ s) with (String "/" (slashes n +:+ s)).
  now rewrite TrimLeft_TrimRight_slash_cons.
Qed.

(** Padding a path with slashes on either side does not change what
    [strings.Trim(_, "/")] returns. *)
Lemma Trim_pad (n m : nat) (s : string) :
  Trim (slashes n +:+ s +:+ slashes m) "/" = Trim s "/".
Proof.
  rewrite Trim_slashes_app. unfold Trim. now rewrite TrimRight_app_slashes.
Qed.

Lemma TrimLeft_decompose (s : string) :
  exists n, s = slashes n +:+ TrimLeft s "/" /\ first_char (TrimLeft s "/") <> Some "/"%char.
Proof.
  induction s as [|c s (n & E & F)]; simpl.
  - exists 0%nat. split; [reflexivity | discriminate].
  - destruct (Ascii.eqb c "/") eqn:Ec.
    + apply Ascii.eqb_eq in Ec as ->. exists (S n). split; [exact (f_equal (String "/"%char) E) | exact F].
    + exists 0%nat. split; [reflexivity|]. simpl. intros [= ->]. discriminate.
Qed.

Lemma TrimRight_decompose (s : string) :
  exists m, s = TrimRight s "/" +:+ slashes m /\ last_char (TrimRight s "/") <> Some "/"%char.
Proof.
  induction s as [|c s (m & E & F)]; simpl.
  - exists 0%nat. split; [reflexivity | discriminate].
  - destruct (TrimRight s "/") as [|d r] eqn:Et.
    + destruct (Ascii.eqb c "/") eqn:Ec.
      * apply Ascii.eqb_eq in Ec as ->. exists (S m). split; [exact (f_equal (String "/"%char) E) | discriminate].
      * exists m. split; [exact (f_equal (String c) E)|]. intros [= ->]. discriminate.
    + exists m. split; [exact (f_equal (String c) E) | exact F].
Qed.

Lemma last_char_TrimLeft (s : string) :
  last_char s <> Some "/"%char -> last_char (TrimLeft s "/") <> Some "/"%char.
Proof.
  induction s as [|c s IH]; simpl; [auto|].
  destruct (Ascii.eqb c "/") eqn:Ec; [|auto].
  destruct s as [|d s]; [simpl; intros _; discriminate | exact IH].
Qed.

(** [strings.Trim(s, "/")] is [s] without its leading and trailing
    slashes, and has none left at either end. *)
Lemma Trim_decompose (s : string) :
  exists n m, s = slashes n +:+ Trim s "/" +:+ slashes m
              /\ first_char (Trim s "/") <> Some "/"%char
              /\ last_char (Trim s "/") <> Some "/"%char.
Proof.
  destruct (TrimRight_decompose s) as (m & E & F).
  destruct (TrimLeft_decompose (TrimRight s "/")) as (n & E' & F').
  exists n, m. unfold Trim. split; [|split].
  - rewrite E at 1. rewrite E' at 1. now rewrite string_app_assoc.
  - exact F'.
  - now apply last_char_TrimLeft.
Qed.

Lemma Split_nonempty (s : string) (sep : ascii) : Split s sep <> [].
Proof.
  destruct s as [|c s]; simpl; [discriminate|].
  destruct (Ascii.eqb c sep); [discriminate|].
  destruct (Split s sep); discriminate.
Qed.

(** ** The token-strategy client, step by step *)

Ltac run_monad :=
  unfold bind, self, assign, throw, ret, attempt, enter_Auth,
         http_NewRequest, Do, ReadAll; simpl.

Section TokenFacts.
Context `{GoRuntime}.
Import Token.

(** [Auth], with every exit written out. *)
Lemma Token_Auth_eq (c : Client) (w : World) :
  Auth c w =
  match NewRequest_err "POST" (authURL c) with
  | Some msg => (inl (NewRequestError msg), c, mkWorld (issued w) (S (auths w)))
  | None =>
      let w1 := mkWorld (issued w ++ [auth_request c])%list (S (auths w)) in
      match RoundTrip (client c) (issued w) (auth_request c) with
      | inl msg => (inl (TransportError msg), c, w1)
      | inr resp =>
          match RespBody resp with
          | inl msg => (inl (ReadError msg), c, w1)
          | inr body =>
              match json_Unmarshal body with
              | inl msg => (inl (JSONError msg), c, w1)
              | inr sso =>
                  if negb (String.eqb (SsoError sso) "") then
                    (inl (ErrorsNew (SsoError sso)), c, w1)
                  else if negb (StatusCode resp =? 200) then
                    (inl (ErrorsNew (Status resp)), c, w1)
                  else (inr tt, set_accessToken (AccessToken sso) c, w1)
              end
          end
      end
  end.
Proof.
  unfold Auth. run_monad.
  destruct (NewRequest_err "POST" (authURL c)); simpl; [reflexivity|].
  change (request_method "POST") with "POST". fold (auth_request c).
  destruct (RoundTrip (client c) (issued w) (auth_request c)) as [msg|resp]; [reflexivity|].
  destruct (RespBody resp) as [msg|body]; simpl; [reflexivity|].
  destruct (json_Unmarshal body) as [msg|sso]; simpl; [reflexivity|].
  destruct (negb (String.eqb (SsoError sso) "")); simpl; [reflexivity|].
  destruct (negb (StatusCode resp =? 200)); reflexivity.
Qed.

(** [finish], with every exit written out. *)
Lemma Token_finish_eq (resp : Response) (c : Client) (w : World) :
  finish resp c w =
  if 300 <=? StatusCode resp then (inl (Errorf (Status resp)), c, w)
  else match RespBody resp with
       | inl msg => (inl (ReadError msg), c, w)
       | inr b => (inr b, c, w)
       end.
Proof.
  unfold finish. destruct (300 <=? StatusCode resp); run_monad; [reflexivity|].
  destruct (RespBody resp); reflexivity.
Qed.

(** One pass through the body of [sendRequest]. *)
Lemma sendRequest_body_eq recur (path method : string) (body : option Reader)
      (reauth : bool) (c : Client) (w : World) :
  sendRequest_body recur path method body reauth c w =
  match NewRequest_err method (request_uri (url c) path) with
  | Some msg => (inl (NewRequestError msg), c, w)
  | None =>
      let req := api_request c path method body in
      let w1 := mkWorld (issued w ++ [req])%list (auths w) in
      match RoundTrip (client c) (issued w) req with
      | inl msg => (inl (TransportError msg), c, w1)
      | inr resp =>
          if (StatusCode resp =? 401) && reauth then
            match Auth c w1 with
            | (inl _, c2, w2) => finish resp c2 w2
            | (inr _, c2, w2) => recur path method body false c2 w2
            end
          else finish resp c w1
      end
  end.
Proof.
  unfold sendRequest_body, request_uri. run_monad.
  destruct (NewRequest_err method _); simpl; [reflexivity|].
  fold (request_uri (url c) path). fold (api_request c path method body).
  destruct (RoundTrip (client c) (issued w) _) as [msg|resp]; [reflexivity|].
  destruct ((StatusCode resp =? 401) && reauth); [|reflexivity].
  destruct (Auth c _) as [[[e|[]] c2] w2]; reflexivity.
Qed.

(** A call with [reauth = false] never reaches its recursive call. *)
Lemma sendRequest_body_false recur recur' path method body c w :
  sendRequest_body recur path method body false c w =
  sendRequest_body recur' path method body false c w.
Proof.
  rewrite !sendRequest_body_eq.
  destruct (NewRequest_err method _); [reflexivity|]. cbv zeta.
  destruct (RoundTrip (client c) (issued w) _) as [msg|resp]; [reflexivity|].
  now rewrite andb_false_r.
Qed.

(** The recursive equation of the source's [sendRequest]. *)
Lemma sendRequest_unfold path method body reauth c w :
  sendRequest path method body reauth c w =
  sendRequest_body sendRequest path method body reauth c w.
Proof.
  unfold sendRequest at 1. rewrite !(sendRequest_body_eq _ path method body reauth).
  destruct (NewRequest_err method _); [reflexivity|]. cbv zeta.
  destruct (RoundTrip (client c) (issued w) _) as [msg|resp]; [reflexivity|].
  destruct ((StatusCode resp =? 401) && reauth); [|reflexivity].
  destruct (Auth c _) as [[[e|[]] c2] w2]; [reflexivity|].
  unfold sendRequest. apply sendRequest_body_false.
Qed.

(** A request sent with re-authentication disabled. *)
Lemma sendRequest_false_eq path method body c w :
  sendRequest path method body false c w =
  match NewRequest_err method (request_uri (url c) path) with
  | Some msg => (inl (NewRequestError msg), c, w)
  | None =>
      let req := api_request c path method body in
      let w1 := mkWorld (issued w ++ [req])%list (auths w) in
      match RoundTrip (client c) (issued w) req with
      | inl msg => (inl (TransportError msg), c, w1)
      | inr resp => finish resp c w1
      end
  end.
Proof.
  rewrite sendRequest_unfold, sendRequest_body_eq.
  destruct (NewRequest_err method _); [reflexivity|]. cbv zeta.
  destruct (RoundTrip (client c) (issued w) _) as [msg|resp]; [reflexivity|].
  now rewrite andb_false_r.
Qed.

(** [SendRequest], one level of the recursion written out. *)
Lemma SendRequest_eq path method body c w :
  SendRequest path method body c w =
  match NewRequest_err method (request_uri (url c) path) with
  | Some msg => (inl (NewRequestError msg), c, w)
  | None =>
      let req := api_request c path method body in
      let w1 := mkWorld (issued w ++ [req])%list (auths w) in
      match RoundTrip (client c) (issued w) req with
      | inl msg => (inl (TransportError msg), c, w1)
      | inr resp =>
          if StatusCode resp =? 401 then
            match Auth c w1 with
            | (inl _, c2, w2) => finish resp c2 w2
            | (inr _, c2, w2) => sendRequest path method body false c2 w2
            end
          else finish resp c w1
      end
  end.
Proof.
  unfold SendRequest. rewrite sendRequest_unfold, sendRequest_body_eq.
  destruct (NewRequest_err method _); [reflexivity|]. cbv zeta.
  destruct (RoundTrip (client c) (issued w) _) as [msg|resp]; [reflexivity|].
  now rewrite andb_true_r.
Qed.
End TokenFacts.

Section TokenAuthFacts.
Context `{GoRuntime}.
Import Token.

(** [Auth] is entered once per call, and hands at most one request to
    the transport. *)
Lemma Token_Auth_world (c : Client) (w : World) :
  auths (Auth c w).2 = S (auths w)
  /\ (issued (Auth c w).2 = issued w
      \/ issued (Auth c w).2 = (issued w ++ [auth_request c])%list).
Proof.
  rewrite Token_Auth_eq.
  destruct (NewRequest_err "POST" (authURL c)); [simpl; auto|]. cbv zeta.
  destruct (RoundTrip _ _ _) as [?|resp]; [simpl; auto|].
  destruct (RespBody resp); [simpl; auto|].
  destruct (json_Unmarshal _) as [?|sso]; [simpl; auto|].
  destruct (negb (String.eqb _ _)); [simpl; auto|].
  destruct (negb (_ =? _)); simpl; auto.
Qed.

(** A failing [Auth] returns the client it was called on. *)
Lemma Token_Auth_error_client (c c' : Client) (w w' : World) (e : error) :
  Auth c w = (inl e, c', w') -> c' = c.
Proof.
  rewrite Token_Auth_eq.
  destruct (NewRequest_err "POST" (authURL c)); [congruence|]. cbv zeta.
  destruct (RoundTrip _ _ _) as [?|resp]; [congruence|].
  destruct (RespBody resp); [congruence|].
  destruct (json_Unmarshal _) as [?|sso]; [congruence|].
  destruct (negb (String.eqb _ _)); [congruence|].
  destruct (negb (_ =? _)); congruence.
Qed.

(** The error of a failing [Auth] is never built by [fmt.Errorf]. *)
Lemma Token_Auth_error_kind (c c' : Client) (w w' : World) (e : error) :
  Auth c w = (inl e, c', w') -> is_RequestError e = false.
Proof.
  rewrite Token_Auth_eq.
  destruct (NewRequest_err "POST" (authURL c)); [intros [= <- _ _]; reflexivity|]. cbv zeta.
  destruct (RoundTrip _ _ _) as [?|resp]; [intros [= <- _ _]; reflexivity|].
  destruct (RespBody resp); [intros [= <- _ _]; reflexivity|].
  destruct (json_Unmarshal _) as [?|sso]; [intros [= <- _ _]; reflexivity|].
  destruct (negb (String.eqb _ _)); [intros [= <- _ _]; reflexivity|].
  destruct (negb (_ =? _)); [intros [= <- _ _]; reflexivity|discriminate].
Qed.

(** What a successful [Auth] has seen and stored. *)
Lemma Token_Auth_success (c c' : Client) (w w' : World) (u : unit) :
  Auth c w = (inr u, c', w') ->
  exists resp body sso,
    NewRequest_err "POST" (authURL c) = None
    /\ RoundTrip (client c) (issued w) (auth_request c) = inr resp
    /\ StatusCode resp = 200
    /\ RespBody resp = inr body
    /\ json_Unmarshal body = inr sso
    /\ SsoError sso = EmptyString
    /\ c' = set_accessToken (AccessToken sso) c
    /\ w' = mkWorld (issued w ++ [auth_request c])%list (S (auths w)).
Proof.
  rewrite Token_Auth_eq.
  destruct (NewRequest_err "POST" (authURL c)) eqn:E1; [discriminate|]. cbv zeta.
  destruct (RoundTrip _ _ _) as [?|resp] eqn:E2; [discriminate|].
  destruct (RespBody resp) as [?|body] eqn:E3; [discriminate|].
  destruct (json_Unmarshal _) as [?|sso] eqn:E4; [discriminate|].
  destruct (String.eqb (SsoError sso) "") eqn:E5; simpl; [|discriminate].
  destruct (StatusCode resp =? 200) eqn:E6; simpl; [|discriminate].
  intros [= _ <- <-]. exists resp, body, sso.
  apply String.eqb_eq in E5. apply Z.eqb_eq in E6. auto 10.
Qed.

(** A request sent with re-authentication disabled never enters
    [Auth], leaves the client alone, and issues at most one request. *)
Lemma sendRequest_false_world path method body (c : Client) (w : World) :
  let out := sendRequest path method body false c w in
  auths out.2 = auths w /\ out.1.2 = c
  /\ (issued out.2 = issued w
      \/ issued out.2 = (issued w ++ [api_request c path method body])%list).
Proof.
  cbv zeta. rewrite sendRequest_false_eq.
  destruct (NewRequest_err method _); [simpl; auto|]. cbv zeta.
  destruct (RoundTrip _ _ _) as [?|resp]; [simpl; auto|].
  rewrite Token_finish_eq.
  destruct (300 <=? StatusCode resp); [simpl; auto|].
  destruct (RespBody resp); simpl; auto.
Qed.


End TokenAuthFacts.

(** ** The cookie-strategy client, step by step *)
Section CookieFacts.
Context `{GoRuntime}.
Import Cookie.

(** [Auth], with every exit written out. *)
Lemma Cookie_Auth_eq (c : ApiClient) (w : World) :
  Auth c w =
  match NewRequest_err "HEAD" (Url c) with
  | Some msg => (inl (NewRequestError msg), c, mkWorld (issued w) (S (auths w)))
  | None =>
      let w1 := mkWorld (issued w ++ [auth_request c])%list (S (auths w)) in
      match RoundTrip (client c) (issued w) (auth_request c) with
      | inl msg => (inl (TransportError msg), c, w1)
      | inr resp =>
          if negb (StatusCode resp =? 200) then
            (inl (ErrorsNew (Status resp)), c, w1)
          else
            (inr tt,
             set_cookie (default EmptyString
                           (Split (Header_Get "Set-Cookie" (RespHeader resp)) ";" !! 0%nat)) c,
             w1)
      end
  end.
Proof.
  unfold Auth. run_monad.
  destruct (NewRequest_err "HEAD" (Url c)); simpl; [reflexivity|].
  change (request_method "HEAD") with "HEAD". fold (auth_request c).
  destruct (RoundTrip (client c) (issued w) (auth_request c)) as [msg|resp]; [reflexivity|].
  destruct (negb (StatusCode resp =? 200)); reflexivity.
Qed.

(** [SendRequest], with every exit written out. *)
Lemma Cookie_SendRequest_eq path method body (c : ApiClient) (w : World) :
  SendRequest path method body c w =
  match NewRequest_err method (request_uri (Url c) path) with
  | Some msg => (inl (NewRequestError msg), c, w)
  | None =>
      let req := api_request c path method body in
      let w1 := mkWorld (issued w ++ [req])%list (auths w) in
      match RoundTrip (client c) (issued w) req with
      | inl msg => (inl (TransportError msg), c, w1)
      | inr resp =>
          if 300 <=? StatusCode resp then (inl (Errorf (Status resp)), c, w1)
          else match RespBody resp with
               | inl msg => (inl (ReadError msg), c, w1)
               | inr b => (inr b, c, w1)
               end
      end
  end.
Proof.
  unfold SendRequest, request_uri. run_monad.
  destruct (NewRequest_err method _); simpl; [reflexivity|].
  fold (request_uri (Url c) path). fold (api_request c path method body).
  destruct (RoundTrip (client c) (issued w) _) as [msg|resp]; [reflexivity|].
  destruct (300 <=? StatusCode resp); [reflexivity|].
  destruct (RespBody resp); reflexivity.
Qed.

Lemma Cookie_Auth_error_client (c c' : ApiClient) (w w' : World) (e : error) :
  Auth c w = (inl e, c', w') -> c' = c.
Proof.
  rewrite Cookie_Auth_eq.
  destruct (NewRequest_err "HEAD" (Url c)); [congruence|]. cbv zeta.
  destruct (RoundTrip _ _ _) as [?|resp]; [congruence|].
  destruct (negb (_ =? _)); congruence.
Qed.

Lemma Cookie_Auth_success (c c' : ApiClient) (w w' : World) (u : unit) :
  Auth c w = (inr u, c', w') ->
  exists resp,
    NewRequest_err "HEAD" (Url c) = None
    /\ RoundTrip (client c) (issued w) (auth_request c) = inr resp
    /\ StatusCode resp = 200
    /\ c' = set_cookie (default EmptyString
                          (Split (Header_Get "Set-Cookie" (RespHeader resp)) ";" !! 0%nat)) c
    /\ w' = mkWorld (issued w ++ [auth_request c])%list (S (auths w)).
Proof.
  rewrite Cookie_Auth_eq.
  destruct (NewRequest_err "HEAD" (Url c)) eqn:E1; [discriminate|]. cbv zeta.
  destruct (RoundTrip _ _ _) as [?|resp] eqn:E2; [discriminate|].
  destruct (StatusCode resp =? 200) eqn:E6; simpl; [|discriminate].
  intros [= _ <- <-]. exists resp. apply Z.eqb_eq in E6. auto 10.
Qed.

End CookieFacts.

(** * The claims *)

Section PathJoin.
Context `{GoRuntime}.

Lemma Token_api_request_Trim c path path' method body :
  Trim path "/" = Trim path' "/" ->
  Token.api_request c path method body = Token.api_request c path' method body.
Proof. intros E. unfold Token.api_request, Token.request_uri. now rewrite E. Qed.

Lemma Token_sendRequest_Trim path path' method body reauth c w :
  Trim path "/" = Trim path' "/" ->
  Token.sendRequest path method body reauth c w =
  Token.sendRequest path' method body reauth c w.
Proof.
  intros E.
  assert (F : forall c0 w0, Token.sendRequest path method body false c0 w0 =
                            Token.sendRequest path' method body false c0 w0).
  { intros c0 w0. rewrite !sendRequest_false_eq.
    rewrite (Token_api_request_Trim c0 path path' method body E).
    unfold Token.request_uri. now rewrite E. }
  destruct reauth; [|apply F].
  change (Token.SendRequest path method body c w = Token.SendRequest path' method body c w).
  rewrite !SendRequest_eq.
  rewrite (Token_api_request_Trim c path path' method body E).
  unfold Token.request_uri. rewrite E.
  destruct (NewRequest_err method _); [reflexivity|]. cbv zeta.
  destruct (RoundTrip _ _ _) as [?|resp]; [reflexivity|].
  destruct (StatusCode resp =? 401); [|reflexivity].
  destruct (Token.Auth c _) as [[[e|u] c2] w2]; [reflexivity|apply F].
Qed.

Lemma Cookie_SendRequest_Trim path path' method body c w :
  Trim path "/" = Trim path' "/" ->
  Cookie.SendRequest path method body c w = Cookie.SendRequest path' method body c w.
Proof.
  intros E. rewrite !Cookie_SendRequest_eq.
  unfold Cookie.api_request, Cookie.request_uri. now rewrite E.
Qed.

End PathJoin.

Section CookieClaims.
Context `{GoRuntime}.
Import Cookie.

(** C2. The cookie client's [SendRequest] never enters [Auth], never
    changes the client and issues at most one request; a response with
    status 300 or more, 401 included, ends the call at once with the
    error [fmt.Errorf(resp.Status)]. *)
Theorem C2_cookie_SendRequest_never_reauthenticates
        (path method : string) (body : option Reader) (c : ApiClient) (w : World) :
  let out := SendRequest path method body c w in
  let req := api_request c path method body in
  (auths out.2 = auths w
   /\ out.1.2 = c
   /\ (issued out.2 = issued w \/ issued out.2 = (issued w ++ [req])%list))
  /\ (forall resp : Response,
         NewRequest_err method (request_uri (Url c) path) = None ->
         RoundTrip (client c) (issued w) req = inr resp ->
         300 <= StatusCode resp ->
         out = (inl (Errorf (Status resp)), c,
                mkWorld (issued w ++ [req])%list (auths w))
         /\ is_RequestError (Errorf (Status resp)) = true).
Proof.
  cbv zeta. rewrite Cookie_SendRequest_eq. split.
  - destruct (NewRequest_err method _); [simpl; auto|]. cbv zeta.
    destruct (RoundTrip _ _ _) as [?|resp]; [simpl; auto|].
    destruct (300 <=? StatusCode resp); [simpl; auto|].
    destruct (RespBody resp); simpl; auto.
  - intros resp E1 E2 Hs. rewrite E1. cbv zeta. rewrite E2.
    apply Z.leb_le in Hs. rewrite Hs. split; reflexivity.
Qed.
End CookieClaims.

(** A 401 answer to the cookie client: one request, no [Auth], the status
    line as the error. *)
Lemma C2_cookie_401_witness :
  300 <= StatusCode resp_401
  /\ @Cookie.SendRequest rt_denied "/vms/" "GET" None cookie_client0 world0
     = (inl (Errorf "401 Unauthorized"), cookie_client0,
        mkWorld [Cookie.api_request cookie_client0 "/vms/" "GET" None] 0).
Proof.
  split; [vm_compute; discriminate|].
  refine (proj1 (proj2 (@C2_cookie_SendRequest_never_reauthenticates
                  rt_denied "/vms/" "GET" None cookie_client0 world0) resp_401 _ _ _)).
  - reflexivity.
  - reflexivity.
  - vm_compute; discriminate.
Defined.

Section TokenClaims.
Context `{GoRuntime}.
Import Token.

Lemma Token_finish_state resp (c : Client) (w : World) :
  (finish resp c w).1.2 = c /\ (finish resp c w).2 = w.
Proof.
  rewrite Token_finish_eq.
  destruct (300 <=? StatusCode resp); [auto|].
  destruct (RespBody resp); auto.
Qed.

(** [Auth] only ever assigns the access token. *)
Lemma Token_Auth_keeps_url (c : Client) (w : World) :
  url (Auth c w).1.2 = url c /\ client (Auth c w).1.2 = client c.
Proof.
  destruct (Auth c w) as [[[e|u] c2] w2] eqn:E; simpl.
  - now rewrite (Token_Auth_error_client _ _ _ _ _ E).
  - destruct (Token_Auth_success _ _ _ _ _ E)
      as (resp & body & sso & _ & _ & _ & _ & _ & _ & -> & _).
    auto.
Qed.

(** C1. [SendRequest] enters [Auth] at most once.  When its first
    response has status 401 it enters [Auth] exactly once; if that
    succeeds, the call is the one retry [sendRequest(path, method, body,
    false)] on the refreshed client: one more request, carrying the new
    bearer token.  A 200 on the retry returns the retry's body; a 401
    (any status of 300 or more) on the retry fails with
    [fmt.Errorf(resp.Status)]. *)
Theorem C1_token_reauthenticates_once
        (path method : string) (body : option Reader) (c : Client) (w : World) :
  let out := SendRequest path method body c w in
  let req1 := api_request c path method body in
  let w1 := mkWorld (issued w ++ [req1])%list (auths w) in
  (auths out.2 <= S (auths w))%nat
  /\ (forall resp1 : Response,
         NewRequest_err method (request_uri (url c) path) = None ->
         RoundTrip (client c) (issued w) req1 = inr resp1 ->
         StatusCode resp1 = 401 ->
         auths out.2 = S (auths w)
         /\ (forall (c2 : Client) (w2 : World),
                Auth c w1 = (inr tt, c2, w2) ->
                let req2 := api_request c2 path method body in
                out = sendRequest path method body false c2 w2
                /\ out.1.2 = c2
                /\ issued out.2 = (issued w ++ [req1; auth_request c; req2])%list
                /\ ReqHeader req2 !! "Authorization" = Some ["Bearer " +:+ accessToken c2]
                /\ (forall resp2 : Response,
                       RoundTrip (client c2) (issued w2) req2 = inr resp2 ->
                       (StatusCode resp2 = 200 ->
                        forall b, RespBody resp2 = inr b -> out.1.1 = inr b)
                       /\ (300 <= StatusCode resp2 ->
                           out.1.1 = inl (Errorf (Status resp2)))
                       /\ (StatusCode resp2 = 401 ->
                           out.1.1 = inl (Errorf (Status resp2))
                           /\ is_RequestError (Errorf (Status resp2)) = true)))).
Proof.
  cbv zeta. split.
  - rewrite SendRequest_eq.
    destruct (NewRequest_err method _); [simpl; lia|]. cbv zeta.
    destruct (RoundTrip _ _ _) as [?|resp]; [simpl; lia|].
    destruct (StatusCode resp =? 401).
    + pose proof (Token_Auth_world c
                    (mkWorld (issued w ++ [api_request c path method body])%list (auths w)))
        as [Ha _].
      destruct (Auth c _) as [[[e|u] c2] w2]; simpl in Ha.
      * destruct (Token_finish_state resp c2 w2) as [_ ->]. lia.
      * destruct (sendRequest_false_world path method body c2 w2) as (-> & _). lia.
    + destruct (Token_finish_state resp c
                  (mkWorld (issued w ++ [api_request c path method body])%list (auths w)))
        as [_ ->].
      simpl; lia.
  - intros resp1 E1 E2 E3. rewrite SendRequest_eq, E1. cbv zeta. rewrite E2, E3.
    change (401 =? 401) with true. cbv iota.
    split.
    + pose proof (Token_Auth_world c
                    (mkWorld (issued w ++ [api_request c path method body])%list (auths w)))
        as [Ha _].
      destruct (Auth c _) as [[[e|u] c2] w2]; simpl in Ha.
      * now destruct (Token_finish_state resp1 c2 w2) as [_ ->].
      * now destruct (sendRequest_false_world path method body c2 w2) as (-> & _).
    + intros c2 w2 EA. rewrite EA.
      destruct (Token_Auth_success _ _ _ _ _ EA)
        as (resp & bd & sso & _ & _ & _ & _ & _ & _ & Ec2 & Ew2).
      assert (Eurl : url c2 = url c) by now rewrite Ec2.
      assert (ENR : NewRequest_err method (request_uri (url c2) path) = None)
        by now rewrite Eurl.
      split; [reflexivity|].
      rewrite sendRequest_false_eq, ENR. cbv zeta.
      split; [|split; [|split]].
      * destruct (RoundTrip (client c2) (issued w2) _) as [?|resp2]; [reflexivity|].
        apply Token_finish_state.
      * assert (issued w2 ++ [api_request c2 path method body]
                = issued w ++ [api_request c path method body; auth_request c;
                               api_request c2 path method body])%list as <-.
        { rewrite Ew2. simpl. now rewrite <- !app_assoc. }
        destruct (RoundTrip (client c2) (issued w2) _) as [?|resp2]; [reflexivity|].
        now destruct (Token_finish_state resp2 c2
                        (mkWorld (issued w2 ++ [api_request c2 path method body])%list
                                 (auths w2))) as [_ ->].
      * unfold api_request, req_Header_Set, Header_Set. simpl.
        apply lookup_insert_eq.
      * intros resp2 E4. rewrite E4, Token_finish_eq.
        split; [|split].
        -- intros E5 b E6. rewrite E5, E6. reflexivity.
        -- intros E5. apply Z.leb_le in E5. now rewrite E5.
        -- intros E5. rewrite E5. split; reflexivity.
Qed.

(** C9. When the first response is 401 and the re-authentication it
    triggers fails, the caller gets [fmt.Errorf] of the first response's
    status line; the error of [Auth] is dropped, and the client is the
    one the call started with. *)
Theorem C9_failed_reauth_reports_first_401
        (path method : string) (body : option Reader) (c c2 : Client)
        (w w2 : World) (resp1 : Response) (e : error) :
  NewRequest_err method (request_uri (url c) path) = None ->
  RoundTrip (client c) (issued w) (api_request c path method body) = inr resp1 ->
  StatusCode resp1 = 401 ->
  Auth c (mkWorld (issued w ++ [api_request c path method body])%list (auths w))
  = (inl e, c2, w2) ->
  SendRequest path method body c w = (inl (Errorf (Status resp1)), c, w2)
  /\ is_RequestError (Errorf (Status resp1)) = true
  /\ Errorf (Status resp1) <> e.
Proof.
  intros E1 E2 E3 EA. rewrite SendRequest_eq, E1. cbv zeta. rewrite E2, E3, EA.
  change (401 =? 401) with true. cbv iota.
  rewrite Token_finish_eq, E3. change (300 <=? 401) with true. cbv iota.
  rewrite (Token_Auth_error_client _ _ _ _ _ EA).
  split; [reflexivity|]. split; [reflexivity|].
  intros <-. now apply Token_Auth_error_kind in EA.
Qed.

(** C4. Given the SSO server's response: a status other than 200 makes
    [Auth] fail; a non-empty [error] field makes it fail with
    [errors.New] of that field; an empty [error] field with status 200
    makes it succeed and store [access_token], and [SendRequest] then
    issues its request with the header [Authorization: Bearer <token>]. *)
Theorem C4_token_Auth_outcome (c : Client) (w : World) (resp : Response) :
  NewRequest_err "POST" (authURL c) = None ->
  RoundTrip (client c) (issued w) (auth_request c) = inr resp ->
  let out := Auth c w in
  (StatusCode resp <> 200 -> exists e, out.1.1 = inl e /\ out.1.2 = c)
  /\ (forall body sso,
         RespBody resp = inr body -> json_Unmarshal body = inr sso ->
         (SsoError sso <> EmptyString ->
          out.1.1 = inl (ErrorsNew (SsoError sso)) /\ out.1.2 = c)
         /\ (SsoError sso = EmptyString -> StatusCode resp = 200 ->
             out.1.1 = inr tt
             /\ accessToken out.1.2 = AccessToken sso
             /\ (forall (path method : string) (rbody : option Reader) (w' : World),
                    NewRequest_err method (request_uri (url out.1.2) path) = None ->
                    exists req,
                      issued (SendRequest path method rbody out.1.2 w').2
                             !! length (issued w') = Some req
                      /\ req = api_request out.1.2 path method rbody
                      /\ ReqHeader req !! "Authorization"
                         = Some ["Bearer " +:+ AccessToken sso]
                      /\ Header_Get "Authorization" (ReqHeader req)
                         = "Bearer " +:+ AccessToken sso))).
Proof.
  intros E1 E2. cbv zeta. rewrite Token_Auth_eq, E1. cbv zeta. rewrite E2. split.
  - intros Hs. apply Z.eqb_neq in Hs.
    destruct (RespBody resp); [eauto|].
    destruct (json_Unmarshal _) as [?|sso]; [eauto|].
    destruct (negb (String.eqb _ _)); [eauto|].
    rewrite Hs. simpl. eauto.
  - intros body sso -> ->. split.
    + intros Hne. apply String.eqb_neq in Hne. rewrite Hne. simpl. auto.
    + intros He Hs. rewrite He, Hs. simpl. split; [reflexivity|]. split; [reflexivity|].
      intros path method rbody w' ENR.
      set (c' := set_accessToken (AccessToken sso) c) in *.
      exists (api_request c' path method rbody).
      assert (Hhdr : ReqHeader (api_request c' path method rbody) !! "Authorization"
                     = Some ["Bearer " +:+ AccessToken sso]).
      { unfold api_request, req_Header_Set, Header_Set. simpl. apply lookup_insert_eq. }
      split; [|split; [reflexivity|split; [exact Hhdr|]]].
      * assert (Hpre : forall l : list Request,
                   (issued w' ++ api_request c' path method rbody :: l)%list
                     !! length (issued w') = Some (api_request c' path method rbody)).
        { intros l. rewrite lookup_app_r by lia. now rewrite Nat.sub_diag. }
        assert (ENR' : NewRequest_err method (request_uri (url c') path) = None)
          by exact ENR.
        rewrite SendRequest_eq, ENR'. cbv zeta.
        destruct (RoundTrip (client c') (issued w') _) as [?|r1]; [apply (Hpre [])|].
        destruct (StatusCode r1 =? 401).
        -- set (w1 := mkWorld _ _).
           destruct (Token_Auth_world c' w1) as [_ Hi].
           destruct (Auth c' w1) as [[[e|u] c2] w2] eqn:EA; simpl in Hi.
           ++ destruct (Token_finish_state r1 c2 w2) as [_ ->].
              destruct Hi as [->| ->]; [apply (Hpre [])|].
              simpl. rewrite <- app_assoc. apply Hpre.
           ++ destruct (sendRequest_false_world path method rbody c2 w2) as (_ & _ & Hj).
              cbv zeta in Hj.
              destruct Hj as [->| ->]; destruct Hi as [->| ->]; simpl;
                rewrite <- ?app_assoc; apply Hpre.
        -- destruct (Token_finish_state r1 c'
                       (mkWorld (issued w' ++ [api_request c' path method rbody])%list
                                (auths w'))) as [_ ->].
           apply (Hpre []).
      * unfold Header_Get. now rewrite Hhdr.
Qed.
End TokenClaims.

(** 401 then 200: the retry's body comes back; 401 twice: the status
    line comes back as the error; [Auth] is entered once in both runs. *)
Lemma C1_reauth_witness :
  ((@Token.SendRequest rt_401_auth_200 "/vms/" "GET" None token_client0 world0).1.1
   = inr (String.list_byte_of_string "<vms/>")
   /\ auths (@Token.SendRequest rt_401_auth_200 "/vms/" "GET" None token_client0 world0).2
      = 1%nat)
  /\ ((@Token.SendRequest rt_401_auth_401 "/vms/" "GET" None token_client0 world0).1.1
      = inl (Errorf "401 Unauthorized")
      /\ auths (@Token.SendRequest rt_401_auth_401 "/vms/" "GET" None token_client0 world0).2
         = 1%nat).
Proof.
  set (req1 := Token.api_request token_client0 "/vms/" "GET" None).
  set (w1 := mkWorld [req1] 0).
  split.
  - destruct (@C1_token_reauthenticates_once rt_401_auth_200
                "/vms/" "GET" None token_client0 world0) as [_ Hc].
    destruct (Hc resp_401 eq_refl eq_refl eq_refl) as [Ha Hr].
    split; [|exact Ha].
    assert (EA : @Token.Auth rt_401_auth_200 token_client0 w1
                 = (inr tt, (@Token.Auth rt_401_auth_200 token_client0 w1).1.2,
                    (@Token.Auth rt_401_auth_200 token_client0 w1).2))
      by (vm_compute; reflexivity).
    destruct (Hr _ _ EA) as (_ & _ & _ & _ & Hretry).
    destruct (Hretry (resp_200 ∅ "<vms/>")) as (H200 & _).
    + vm_compute; reflexivity.
    + apply H200; reflexivity.
  - destruct (@C1_token_reauthenticates_once rt_401_auth_401
                "/vms/" "GET" None token_client0 world0) as [_ Hc].
    destruct (Hc resp_401 eq_refl eq_refl eq_refl) as [Ha Hr].
    split; [|exact Ha].
    assert (EA : @Token.Auth rt_401_auth_401 token_client0 w1
                 = (inr tt, (@Token.Auth rt_401_auth_401 token_client0 w1).1.2,
                    (@Token.Auth rt_401_auth_401 token_client0 w1).2))
      by (vm_compute; reflexivity).
    destruct (Hr _ _ EA) as (_ & _ & _ & _ & Hretry).
    destruct (Hretry resp_401) as (_ & _ & H401).
    + vm_compute; reflexivity.
    + apply H401; reflexivity.
Defined.

(** 401, then an SSO exchange refused with [access_denied]: the caller
    sees the 401, not [access_denied]. *)
Lemma C9_failed_reauth_witness :
  @Token.SendRequest rt_401_denied "/vms/" "GET" None token_client0 world0
  = (inl (Errorf "401 Unauthorized"), token_client0,
     mkWorld [Token.api_request token_client0 "/vms/" "GET" None;
              @Token.auth_request rt_401_denied token_client0] 1).
Proof.
  refine (proj1 (@C9_failed_reauth_reports_first_401 rt_401_denied
                   "/vms/" "GET" None token_client0 token_client0 world0 _
                   resp_401 (ErrorsNew "access_denied") eq_refl eq_refl eq_refl _)).
  vm_compute; reflexivity.
Defined.

(** A 200 SSO answer carrying [tok-2]: [Auth] stores it and the next
    request carries it. *)
Lemma C4_token_Auth_witness :
  (@Token.Auth rt_auth_200 token_client0 world0).1.1 = inr tt
  /\ Token.accessToken (@Token.Auth rt_auth_200 token_client0 world0).1.2 = "tok-2".
Proof.
  destruct (@C4_token_Auth_outcome rt_auth_200 token_client0 world0
              (resp_200 {["Set-Cookie" := ["JSESSIONID=xyz; Path=/; HttpOnly"]]} "{}")
              eq_refl eq_refl) as [_ Hb].
  destruct (Hb (String.list_byte_of_string "{}") (mkSso "tok-2" "" "") eq_refl eq_refl)
    as [_ Hok].
  destruct (Hok eq_refl eq_refl) as (Hr & Ht & _).
  split; [exact Hr | exact Ht].
Defined.

Section AuthClaims.
Context `{GoRuntime}.

(** C10. A failing [Auth] leaves the client, and so the stored session
    credential, exactly as it was before the call, in both variants. *)
Theorem C10_failed_Auth_keeps_credential :
  (forall (c c' : Token.Client) (w w' : World) (e : error),
      Token.Auth c w = (inl e, c', w') ->
      c' = c /\ Token.accessToken c' = Token.accessToken c)
  /\ (forall (c c' : Cookie.ApiClient) (w w' : World) (e : error),
         Cookie.Auth c w = (inl e, c', w') ->
         c' = c /\ Cookie.cookie c' = Cookie.cookie c).
Proof.
  split.
  - intros c c' w w' e E. now rewrite (Token_Auth_error_client _ _ _ _ _ E).
  - intros c c' w w' e E. now rewrite (Cookie_Auth_error_client _ _ _ _ _ E).
Qed.

(** C8. [NewClient] returns an error exactly when its call of [Auth]
    fails, and then returns no client; otherwise it returns the client
    as [Auth] left it, whose credential is the one that [Auth] took from
    the server's response. *)
Theorem C8_NewClient_all_or_nothing :
  (forall (url username password : string) (opts : list Token.ClientOption) (w : World),
      let out := Token.NewClient url username password opts w in
      let c0 := fold_left (fun c o => o c) opts
                          (Token.mkClient url username password defaultLogger false
                                          EmptyString (mkHttpClient false)) in
      let a := Token.Auth c0 w in
      out.2 = a.2
      /\ match a.1.1 with
         | inl e => out.1 = (None, Some e)
         | inr _ =>
             out.1 = (Some a.1.2, None)
             /\ exists resp body sso,
                 RoundTrip (Token.client c0) (issued w) (Token.auth_request c0) = inr resp
                 /\ RespBody resp = inr body
                 /\ json_Unmarshal body = inr sso
                 /\ a.1.2 = Token.set_accessToken (AccessToken sso) c0
         end
      /\ (out.1.2 <> None <-> exists e, a.1.1 = inl e)
      /\ (out.1.2 <> None <-> out.1.1 = None))
  /\ (forall (url username password : string) (insecureCert : bool) (w : World),
         let out := Cookie.NewClient url username password insecureCert w in
         let c0 := Cookie.mkApiClient url username password defaultLogger false
                                      EmptyString (mkHttpClient insecureCert) in
         let a := Cookie.Auth c0 w in
         out.2 = a.2
         /\ match a.1.1 with
            | inl e => out.1 = (None, Some e)
            | inr _ =>
                out.1 = (Some a.1.2, None)
                /\ exists resp,
                    RoundTrip (Cookie.client c0) (issued w) (Cookie.auth_request c0) = inr resp
                    /\ a.1.2 = Cookie.set_cookie
                                 (default EmptyString
                                    (Split (Header_Get "Set-Cookie" (RespHeader resp)) ";"
                                           !! 0%nat)) c0
            end
         /\ (out.1.2 <> None <-> exists e, a.1.1 = inl e)
         /\ (out.1.2 <> None <-> out.1.1 = None)).
Proof.
  split.
  - intros url username password opts w. unfold Token.NewClient. cbv zeta.
    match goal with |- context [Token.Auth ?c w] => set (c0 := c) end.
    destruct (Token.Auth c0 w) as [[[e|u] c1] w1] eqn:EA; simpl.
    + split; [reflexivity|]. split; [reflexivity|]. split; split; eauto; discriminate.
    + split; [reflexivity|]. split; [split; [reflexivity|]|].
      * destruct (Token_Auth_success _ _ _ _ _ EA)
          as (resp & body & sso & _ & E2 & _ & E3 & E4 & _ & Ec & _).
        exists resp, body, sso. auto.
      * split; split; try congruence; intros [e He]; discriminate.
  - intros url username password insecureCert w. unfold Cookie.NewClient. cbv zeta.
    set (c0 := Cookie.mkApiClient _ _ _ _ _ _ _).
    destruct (Cookie.Auth c0 w) as [[[e|u] c1] w1] eqn:EA; simpl.
    + split; [reflexivity|]. split; [reflexivity|]. split; split; eauto; discriminate.
    + split; [reflexivity|]. split; [split; [reflexivity|]|].
      * destruct (Cookie_Auth_success _ _ _ _ _ EA) as (resp & _ & E2 & _ & Ec & _).
        exists resp. auto.
      * split; split; try congruence; intros [e He]; discriminate.
Qed.

(** C5, as the code has it.  After a construction that returned no
    error, the stored session credential is the value the server's 200
    answer supplied: the [access_token] field of the SSO response, or
    the first [;]-delimited segment of the [Set-Cookie] header; it is
    non-empty exactly when that value is. *)
Theorem C5_credential_is_the_servers_value :
  (forall (url username password : string) (opts : list Token.ClientOption) (w : World),
      let out := Token.NewClient url username password opts w in
      let c0 := fold_left (fun c o => o c) opts
                          (Token.mkClient url username password defaultLogger false
                                          EmptyString (mkHttpClient false)) in
      out.1.2 = None ->
      exists c resp body sso,
        out.1.1 = Some c
        /\ RoundTrip (Token.client c0) (issued w) (Token.auth_request c0) = inr resp
        /\ StatusCode resp = 200
        /\ RespBody resp = inr body
        /\ json_Unmarshal body = inr sso
        /\ SsoError sso = EmptyString
        /\ Token.accessToken c = AccessToken sso
        /\ (Token.accessToken c <> EmptyString <-> AccessToken sso <> EmptyString))
  /\ (forall (url username password : string) (insecureCert : bool) (w : World),
         let out := Cookie.NewClient url username password insecureCert w in
         let c0 := Cookie.mkApiClient url username password defaultLogger false
                                      EmptyString (mkHttpClient insecureCert) in
         out.1.2 = None ->
         exists c resp,
           out.1.1 = Some c
           /\ RoundTrip (Cookie.client c0) (issued w) (Cookie.auth_request c0) = inr resp
           /\ StatusCode resp = 200
           /\ Split (Header_Get "Set-Cookie" (RespHeader resp)) ";"
                    !! 0%nat = Some (Cookie.cookie c)
           /\ (Cookie.cookie c <> EmptyString <->
               Split (Header_Get "Set-Cookie" (RespHeader resp)) ";"
                     !! 0%nat <> Some EmptyString)).
Proof.
  split.
  - intros url username password opts w. unfold Token.NewClient. cbv zeta.
    match goal with |- context [Token.Auth ?c w] => set (c0 := c) end.
    destruct (Token.Auth c0 w) as [[[e|u] c1] w1] eqn:EA; simpl; [discriminate|].
    intros _.
    destruct (Token_Auth_success _ _ _ _ _ EA)
      as (resp & body & sso & _ & E2 & Es & E3 & E4 & E5 & -> & _).
    exists (Token.set_accessToken (AccessToken sso) c0), resp, body, sso.
    simpl. tauto.
  - intros url username password insecureCert w. unfold Cookie.NewClient. cbv zeta.
    set (c0 := Cookie.mkApiClient _ _ _ _ _ _ _).
    destruct (Cookie.Auth c0 w) as [[[e|u] c1] w1] eqn:EA; simpl; [discriminate|].
    intros _.
    destruct (Cookie_Auth_success _ _ _ _ _ EA) as (resp & _ & E2 & Es & -> & _).
    exists (Cookie.set_cookie
              (default EmptyString
                 (Split (Header_Get "Set-Cookie" (RespHeader resp)) ";" !! 0%nat)) c0), resp.
    simpl.
    destruct (Split (Header_Get "Set-Cookie" (RespHeader resp)) ";") as [|x xs] eqn:ES.
    + now apply Split_nonempty in ES.
    + simpl. repeat split; auto; congruence.
Qed.
End AuthClaims.

(** An authentication exchange the server refuses: both clients keep the
    credential they had. *)
Lemma C10_failed_Auth_witness :
  (@Token.Auth rt_denied token_client0 world0).1
  = (inl (ErrorsNew "access_denied"), token_client0)
  /\ (@Cookie.Auth rt_denied cookie_client0 world0).1
     = (inl (ErrorsNew "401 Unauthorized"), cookie_client0).
Proof.
  destruct (@C10_failed_Auth_keeps_credential rt_denied) as [Ht Hc].
  assert (Et : @Token.Auth rt_denied token_client0 world0
               = (inl (ErrorsNew "access_denied"),
                  (@Token.Auth rt_denied token_client0 world0).1.2,
                  (@Token.Auth rt_denied token_client0 world0).2))
    by (vm_compute; reflexivity).
  assert (Ec : @Cookie.Auth rt_denied cookie_client0 world0
               = (inl (ErrorsNew "401 Unauthorized"),
                  (@Cookie.Auth rt_denied cookie_client0 world0).1.2,
                  (@Cookie.Auth rt_denied cookie_client0 world0).2))
    by (vm_compute; reflexivity).
  split.
  - exact (eq_trans (f_equal fst Et)
                    (f_equal (fun x => (inl (ErrorsNew "access_denied"), x))
                             (proj1 (Ht _ _ _ _ _ Et)))).
  - exact (eq_trans (f_equal fst Ec)
                    (f_equal (fun x => (inl (ErrorsNew "401 Unauthorized"), x))
                             (proj1 (Hc _ _ _ _ _ Ec)))).
Defined.

(** C5 as stated fails: a 200 answer without a [Set-Cookie] header, or
    with the JSON object [{}], constructs a client whose credential is the
    empty string. *)
Lemma C5_empty_credential_counterexample :
  ~ (forall c : Cookie.ApiClient,
        (@Cookie.NewClient rt_auth_empty "https://engine.example.com/ovirt-engine/api/"
                           "admin@internal" "secret" false world0).1 = (Some c, None) ->
        Cookie.cookie c <> EmptyString)
  /\ ~ (forall c : Token.Client,
           (@Token.NewClient rt_auth_empty "https://engine.example.com/ovirt-engine/api/"
                             "admin@internal" "secret" [] world0).1 = (Some c, None) ->
           Token.accessToken c <> EmptyString).
Proof.
  split.
  - intros Hc. eapply Hc; [vm_compute; reflexivity|]. reflexivity.
  - intros Hc. eapply Hc; [vm_compute; reflexivity|]. reflexivity.
Qed.

(** A 200 answer with [Set-Cookie: JSESSIONID=xyz; Path=/; HttpOnly] and an
    SSO response carrying [tok-2]. *)
Lemma C5_credential_witness :
  (exists c, (@Token.NewClient rt_auth_200 "https://engine.example.com/ovirt-engine/api/"
                               "admin@internal" "secret" [Token.WithInsecure] world0).1.1
             = Some c /\ Token.accessToken c = "tok-2")
  /\ (exists c, (@Cookie.NewClient rt_auth_200 "https://engine.example.com/ovirt-engine/api/"
                                   "admin@internal" "secret" true world0).1.1
                = Some c /\ Cookie.cookie c = "JSESSIONID=xyz").
Proof.
  destruct (@C5_credential_is_the_servers_value rt_auth_200) as [Ht Hc].
  split.
  - destruct (Ht "https://engine.example.com/ovirt-engine/api/" "admin@internal" "secret"
                 [Token.WithInsecure] world0 eq_refl)
      as (c & resp & body & sso & E1 & E2 & _ & E3 & E4 & _ & E5 & _).
    exists c. split; [exact E1|]. rewrite E5.
    vm_compute in E2. injection E2 as <-. vm_compute in E3. injection E3 as <-.
    vm_compute in E4. injection E4 as <-. reflexivity.
  - destruct (Hc "https://engine.example.com/ovirt-engine/api/" "admin@internal" "secret"
                 true world0 eq_refl)
      as (c & resp & E1 & E2 & _ & E3 & _).
    exists c. split; [exact E1|].
    vm_compute in E2. injection E2 as <-.
    assert (E : Some (Cookie.cookie c) = Some "JSESSIONID=xyz")
      by (rewrite <- E3; vm_compute; reflexivity).
    now injection E.
Defined.

Section ParseClaims.
Context `{GoRuntime} {T : Type} `{XMLDecoder T}.

End ParseClaims.


(** ** The SSO request *)

Lemma TrimRight_all_in_cutset (t cutset : string) :
  (forall s : string, TrimRight (s +:+ t) cutset = TrimRight s cutset)
  <-> TrimRight t cutset = EmptyString.
Proof.
  split.
  - intros Ht. exact (Ht EmptyString).
  - intros Ht s. induction s as [|c s IH]; [exact Ht|].
    change (String c s +:+ t) with (String c (s +:+ t)). simpl. now rewrite IH.
Qed.

Lemma TrimRight_fixed (s cutset : string) :
  match last_char s with
  | Some x => cutset_mem x cutset = false
  | None => True
  end ->
  TrimRight s cutset = s.
Proof.
  induction s as [|c s IH]; [reflexivity|]. simpl.
  destruct s as [|d s].
  - simpl. now intros ->.
  - intros Hl. rewrite (IH Hl). reflexivity.
Qed.

Section SSORequest.
Context `{GoRuntime}.
Import Token.

(** The request of [Auth]: a POST with a form-encoded body holding the
    four fields, sent to [TrimRight(url, "/api/") + "/sso/oauth/token"]. *)
Lemma Token_auth_request_shape (c : Client) :
  Method (auth_request c) = "POST"
  /\ URL (auth_request c) = TrimRight (url c) "/api/" +:+ "/sso/oauth/token"
  /\ ReqHeader (auth_request c) !! "Content-Type" = Some ["application/x-www-form-urlencoded"]
  /\ ReqHeader (auth_request c) !! "Accept" = Some ["application/json"]
  /\ ReqBody (auth_request c) = Some (strings_NewReader (Values_Encode (auth_payload c)))
  /\ auth_payload c !! "grant_type" = Some ["password"]
  /\ auth_payload c !! "scope" = Some ["ovirt-app-api"]
  /\ auth_payload c !! "username" = Some [username c]
  /\ auth_payload c !! "password" = Some [password c].
Proof.
  unfold auth_request, auth_payload, req_Header_Set, Header_Set, Values_Set. simpl.
  repeat split; simplify_map_eq; reflexivity.
Qed.

(** Where the base URL is [base/api/] and [base] does not end in one of
    the characters [/], [a], [p], [i], the SSO URL is
    [base/sso/oauth/token]. *)
Lemma Token_authURL_suffix (c : Client) (base : string) :
  url c = base +:+ "/api/" ->
  match last_char base with
  | Some x => cutset_mem x "/api/" = false
  | None => True
  end ->
  authURL c = base +:+ "/sso/oauth/token".
Proof.
  intros Eu Hl. unfold authURL. rewrite Eu.
  rewrite (proj2 (TrimRight_all_in_cutset "/api/" "/api/") eq_refl).
  now rewrite TrimRight_fixed.
Qed.
End SSORequest.

(** C3, at the base URL [https://ovirt.example.ai/api/].  [Auth] sends its
    POST to [https://ovirt.example./sso/oauth/token]: [strings.TrimRight]
    takes ["/api/"] as a set of characters and also removes the [ai] of
    the host name.  Stripping the suffix ["/api/"] gives
    [https://ovirt.example.ai/sso/oauth/token]. *)
Theorem C3_authURL_strips_characters_not_suffix :
  let c := Token.mkClient "https://ovirt.example.ai/api/" "admin@internal" "secret"
                          defaultLogger false EmptyString (mkHttpClient false) in
  URL <$> issued (@Token.Auth rt_auth_200 c world0).2
  = ["https://ovirt.example./sso/oauth/token"]
  /\ Method <$> issued (@Token.Auth rt_auth_200 c world0).2 = ["POST"]
  /\ Token.authURL c = "https://ovirt.example./sso/oauth/token"
  /\ TrimSuffix (Token.url c) "/api/" +:+ "/sso/oauth/token"
     = "https://ovirt.example.ai/sso/oauth/token"
  /\ Token.authURL c <> TrimSuffix (Token.url c) "/api/" +:+ "/sso/oauth/token".
Proof.
  cbv zeta. repeat split; try (vm_compute; reflexivity).
  vm_compute. discriminate.
Qed.

(** [GetAndParse] on a well-formed and on a malformed body, with the
    decoder [vms_decoder]: the first fills the target, the second returns
    the decoder's error and the target as it was. *)
Example GetAndParse_runs :
  (@Cookie.GetAndParse (scripted [inr (resp_200 ∅ "<vms/>")] sso_ok) string vms_decoder
                       "/vms/" "before" cookie_client0 world0).1.1
  = (None, "vms")
  /\ (@Token.GetAndParse (scripted [inr (resp_200 ∅ "<vms")] sso_ok) string vms_decoder
                         "/vms/" "before" token_client0 world0).1.1
     = (Some (XMLError "EOF"), "before")
  /\ (@Token.GetAndParse rt_denied string vms_decoder
                         "/vms/" "before" token_client0 world0).1.1
     = (Some (Errorf "401 Unauthorized"), "before").
Proof. repeat split; vm_compute; reflexivity. Qed.

(** * Further properties of the clients *)

Section CloseFacts.
Context `{GoRuntime}.

(** [Close], in both variants, never enters [Auth] and never touches the
    client, so the stored credential survives it.  When [http.NewRequest]
    accepts the base URL it issues exactly one request, whether or not the
    transport fails: a bodiless HEAD to the base URL as stored (not
    trimmed) whose only header is the Basic-auth [Authorization]; when
    [http.NewRequest] rejects the URL it issues nothing. *)
Theorem Close_keeps_client_and_issues_one_HEAD :
  (forall (c : Token.Client) (w : World),
      let out := Token.Close c w in
      let req := Token.close_request c in
      out.1 = c /\ auths out.2 = auths w
      /\ issued out.2 = match NewRequest_err "HEAD" (Token.url c) with
                        | Some _ => issued w
                        | None => (issued w ++ [req])%list
                        end
      /\ Method req = "HEAD" /\ URL req = Token.url c /\ ReqBody req = None
      /\ ReqHeader req
         = {["Authorization" := [basicAuth (Token.username c) (Token.password c)]]})
  /\ (forall (c : Cookie.ApiClient) (w : World),
         let out := Cookie.Close c w in
         let req := Cookie.close_request c in
         out.1 = c /\ auths out.2 = auths w
         /\ issued out.2 = match NewRequest_err "HEAD" (Cookie.Url c) with
                           | Some _ => issued w
                           | None => (issued w ++ [req])%list
                           end
         /\ Method req = "HEAD" /\ URL req = Cookie.Url c /\ ReqBody req = None
         /\ ReqHeader req
            = {["Authorization" := [basicAuth (Cookie.Username c) (Cookie.Password c)]]}).
Proof.
  split.
  - intros c w. cbv zeta. unfold Token.Close. run_monad.
    destruct (NewRequest_err "HEAD" (Token.url c)); simpl.
    + repeat split; reflexivity.
    + change (request_method "HEAD") with "HEAD". fold (Token.close_request c).
      destruct (RoundTrip _ _ _); simpl; repeat split; reflexivity.
  - intros c w. cbv zeta. unfold Cookie.Close. run_monad.
    destruct (NewRequest_err "HEAD" (Cookie.Url c)); simpl.
    + repeat split; reflexivity.
    + change (request_method "HEAD") with "HEAD". fold (Cookie.close_request c).
      destruct (RoundTrip _ _ _); simpl; repeat split; reflexivity.
Qed.
End CloseFacts.

Ltac trace_done :=
  split; [reflexivity | split; [simpl; lia | auto 6]].

Section TokenRequestFacts.
Context `{GoRuntime}.
Import Token.

(** [SendRequest] re-authenticates only on a 401: it enters [Auth]
    exactly when [http.NewRequest] accepted the request, the transport
    delivered a response, and that response has status 401.  In every other
    case (a rejected request, a transport error, any other status such as
    403 or 500) the client is unchanged, at most one request is issued, and
    the first error is what the caller gets. *)
Theorem Token_SendRequest_reauth_iff_401
        (path method : string) (body : option Reader) (c : Client) (w : World) :
  let out := SendRequest path method body c w in
  let req := api_request c path method body in
  let w1 := mkWorld (issued w ++ [req])%list (auths w) in
  (auths out.2 = S (auths w)
   <-> exists resp, NewRequest_err method (request_uri (url c) path) = None
                    /\ RoundTrip (client c) (issued w) req = inr resp
                    /\ StatusCode resp = 401)
  /\ (forall msg, NewRequest_err method (request_uri (url c) path) = Some msg ->
                  out = (inl (NewRequestError msg), c, w))
  /\ (NewRequest_err method (request_uri (url c) path) = None ->
      (forall msg, RoundTrip (client c) (issued w) req = inl msg ->
                   out = (inl (TransportError msg), c, w1))
      /\ (forall resp, RoundTrip (client c) (issued w) req = inr resp ->
                       StatusCode resp <> 401 ->
                       out = finish resp c w1
                       /\ out.1.2 = c /\ out.2 = w1
                       /\ (300 <= StatusCode resp -> out.1.1 = inl (Errorf (Status resp)))
                       /\ (StatusCode resp < 300 ->
                           out.1.1 = match RespBody resp with
                                     | inl m => inl (ReadError m)
                                     | inr b => inr b
                                     end))).
Proof.
  cbv zeta. rewrite SendRequest_eq.
  destruct (NewRequest_err method _) as [m|] eqn:E1.
  - split; [|split].
    + simpl. split; [lia|]. intros (resp & [=] & _).
    + intros msg [= <-]. reflexivity.
    + discriminate.
  - cbv zeta.
    destruct (RoundTrip (client c) (issued w) _) as [m|resp] eqn:E2.
    + split; [|split].
      * simpl. split; [lia|]. intros (resp & _ & [=] & _).
      * discriminate.
      * intros _. split; [intros msg [= <-]; reflexivity | discriminate].
    + destruct (StatusCode resp =? 401) eqn:E3.
      * apply Z.eqb_eq in E3. split; [|split].
        -- split; [intros _; eauto|]. intros _.
           pose proof (Token_Auth_world c
                         (mkWorld (issued w ++ [api_request c path method body])%list
                                  (auths w))) as [Ha _].
           destruct (Auth c _) as [[[e|u] c2] w2]; simpl in Ha.
           ++ now destruct (Token_finish_state resp c2 w2) as [_ ->].
           ++ now destruct (sendRequest_false_world path method body c2 w2) as (-> & _).
        -- discriminate.
        -- intros _. split; [discriminate|]. intros r [= <-] Hne. contradiction.
      * apply Z.eqb_neq in E3.
        destruct (Token_finish_state resp c
                    (mkWorld (issued w ++ [api_request c path method body])%list (auths w)))
          as [Hc Hw].
        split; [|split].
        -- rewrite Hw. simpl. split; [lia|]. intros (r & _ & [= <-] & Hs). contradiction.
        -- discriminate.
        -- intros _. split; [discriminate|]. intros r [= <-] _.
           split; [reflexivity|]. split; [exact Hc|]. split; [exact Hw|].
           rewrite Token_finish_eq. split.
           ++ intros Hs. apply Z.leb_le in Hs. now rewrite Hs.
           ++ intros Hs. apply Z.leb_gt in Hs. rewrite Hs.
              destruct (RespBody resp); reflexivity.
Qed.

(** [SendRequest] changes nothing of the client but the access token, and
    changes that only when the first response was a 401 and the SSO
    exchange then succeeded: the client afterwards holds the token the SSO
    server returned, also when the retried request fails. *)
Theorem Token_SendRequest_only_replaces_the_token
        (path method : string) (body : option Reader) (c : Client) (w : World) :
  let c' := (SendRequest path method body c w).1.2 in
  let req := api_request c path method body in
  (url c' = url c /\ username c' = username c /\ password c' = password c
   /\ logger c' = logger c /\ debug c' = debug c /\ client c' = client c)
  /\ (c' = c
      \/ exists resp1 resp body' sso,
          RoundTrip (client c) (issued w) req = inr resp1
          /\ StatusCode resp1 = 401
          /\ RoundTrip (client c) (issued w ++ [req])%list (auth_request c) = inr resp
          /\ StatusCode resp = 200
          /\ RespBody resp = inr body'
          /\ json_Unmarshal body' = inr sso
          /\ SsoError sso = EmptyString
          /\ c' = set_accessToken (AccessToken sso) c).
Proof.
  cbv zeta.
  assert (Hmain :
            (SendRequest path method body c w).1.2 = c
            \/ exists resp1 resp body' sso,
              RoundTrip (client c) (issued w) (api_request c path method body) = inr resp1
              /\ StatusCode resp1 = 401
              /\ RoundTrip (client c) (issued w ++ [api_request c path method body])%list
                           (auth_request c) = inr resp
              /\ StatusCode resp = 200
              /\ RespBody resp = inr body'
              /\ json_Unmarshal body' = inr sso
              /\ SsoError sso = EmptyString
              /\ (SendRequest path method body c w).1.2
                 = set_accessToken (AccessToken sso) c).
  { rewrite SendRequest_eq.
    destruct (NewRequest_err method _); [left; reflexivity|]. cbv zeta.
    destruct (RoundTrip (client c) (issued w) _) as [m|resp1] eqn:E2; [left; reflexivity|].
    destruct (StatusCode resp1 =? 401) eqn:E3.
    - apply Z.eqb_eq in E3.
      destruct (Auth c _) as [[[e|u] c2] w2] eqn:EA.
      + left. destruct (Token_finish_state resp1 c2 w2) as [-> _].
        exact (Token_Auth_error_client _ _ _ _ _ EA).
      + right.
        destruct (Token_Auth_success _ _ _ _ _ EA)
          as (resp & bd & sso & _ & R2 & S2 & B2 & J2 & SE & -> & _).
        exists resp1, resp, bd, sso.
        destruct (sendRequest_false_world path method body
                    (set_accessToken (AccessToken sso) c) w2) as (_ & -> & _).
        simpl in R2. auto 10.
    - left. apply Token_finish_state. }
  split; [|exact Hmain].
  destruct Hmain as [->|(r1 & r & b & sso & _ & _ & _ & _ & _ & _ & _ & ->)];
    simpl; auto 10.
Qed.

(** What one [SendRequest] puts on the wire: nothing, or the request; on
    a first 401 possibly the SSO POST after it, and after a successful SSO
    exchange one retry built from the refreshed client.  Never more than
    three requests, and never a second SSO POST. *)
Theorem Token_SendRequest_trace
        (path method : string) (body : option Reader) (c : Client) (w : World) :
  let out := SendRequest path method body c w in
  let req := api_request c path method body in
  exists l : list Request,
    issued out.2 = (issued w ++ l)%list
    /\ (length l <= 3)%nat
    /\ (l = [] \/ l = [req] \/ l = [req; auth_request c]
        \/ l = [req; auth_request c; api_request out.1.2 path method body]).
Proof.
  cbv zeta. rewrite SendRequest_eq.
  destruct (NewRequest_err method _) eqn:E1.
  { exists []. simpl. rewrite app_nil_r. trace_done. }
  cbv zeta.
  destruct (RoundTrip (client c) (issued w) _) as [m|resp1] eqn:E2.
  { exists [api_request c path method body]. simpl. trace_done. }
  destruct (StatusCode resp1 =? 401).
  - set (w1 := mkWorld _ _).
    destruct (Token_Auth_world c w1) as [_ Hi].
    destruct (Auth c w1) as [[[e|u] c2] w2] eqn:EA; simpl in Hi.
    + destruct (Token_finish_state resp1 c2 w2) as [_ ->].
      destruct Hi as [->| ->]; simpl.
      * exists [api_request c path method body]. simpl. trace_done.
      * exists [api_request c path method body; auth_request c].
        rewrite <- app_assoc. simpl. trace_done.
    + destruct (Token_Auth_success _ _ _ _ _ EA)
        as (resp & bd & sso & _ & _ & _ & _ & _ & _ & Ec2 & Ew2).
      destruct (sendRequest_false_world path method body c2 w2) as (_ & Hc & Hj).
      cbv zeta in Hc, Hj. rewrite Hc.
      destruct Hj as [->| ->]; rewrite Ew2; simpl.
      * exists [api_request c path method body; auth_request c].
        rewrite <- app_assoc. simpl. trace_done.
      * exists [api_request c path method body; auth_request c;
                api_request c2 path method body].
        rewrite <- !app_assoc. simpl. trace_done.
  - destruct (Token_finish_state resp1 c
                (mkWorld (issued w ++ [api_request c path method body])%list (auths w)))
      as [_ ->].
    exists [api_request c path method body]. simpl. trace_done.
Qed.
End TokenRequestFacts.

(** Witness for [Token_SendRequest_reauth_iff_401]: a 403 and a dead
    transport both come back as they are, without a visit to the SSO
    server. *)
Lemma Token_SendRequest_no_reauth_witness :
  @Token.SendRequest rt_403 "/vms/" "GET" None token_client0 world0
  = (inl (Errorf "403 Forbidden"), token_client0,
     mkWorld [Token.api_request token_client0 "/vms/" "GET" None] 0)
  /\ @Token.SendRequest rt_down "/vms/" "GET" None token_client0 world0
     = (inl (TransportError "connection refused"), token_client0,
        mkWorld [Token.api_request token_client0 "/vms/" "GET" None] 0).
Proof.
  split.
  - destruct (@Token_SendRequest_reauth_iff_401 rt_403 "/vms/" "GET" None
                token_client0 world0) as (_ & _ & Hok).
    destruct (Hok eq_refl) as [_ Hresp].
    destruct (Hresp (resp_status 403 "403 Forbidden" "denied") eq_refl)
      as (E & _); [vm_compute; discriminate|].
    rewrite E. vm_compute. reflexivity.
  - destruct (@Token_SendRequest_reauth_iff_401 rt_down "/vms/" "GET" None
                token_client0 world0) as (_ & _ & Hok).
    destruct (Hok eq_refl) as [Herr _].
    exact (Herr "connection refused" eq_refl).
Defined.

(** ** Authentication *)

Lemma Split_head (s : string) (sep : ascii) :
  exists x xs,
    Split s sep = x :: xs
    /\ cutset_mem sep x = false
    /\ (s = x \/ exists rest, s = x +:+ String sep rest).
Proof.
  induction s as [|c s (x & xs & E & Hx & Hs)].
  - exists EmptyString, []. auto.
  - simpl. destruct (Ascii.eqb c sep) eqn:Ec.
    + apply Ascii.eqb_eq in Ec as ->.
      exists EmptyString, (Split s sep). split; [reflexivity|]. split; [reflexivity|].
      right. exists s. reflexivity.
    + rewrite E. exists (String c x), xs. split; [reflexivity|]. split.
      * simpl. rewrite Ascii.eqb_sym, Ec. exact Hx.
      * destruct Hs as [->|(rest & ->)]; [left; reflexivity|].
        right. exists rest. reflexivity.
Qed.

Section AuthFacts.
Context `{GoRuntime}.

(** [Auth] does not look at the credential the client holds, and does not
    send it: the authentication request carries neither the bearer token
    (no [Authorization] header on the SSO POST) nor the cookie (no
    [Cookie] header on the HEAD), and the outcome and the requests issued
    are the same whatever credential was stored.  A success stores the
    same new credential; a failure leaves the old one. *)
Theorem Auth_ignores_the_stored_credential :
  (forall (c : Token.Client) (t : string) (w : World),
      let a := Token.Auth c w in
      let a' := Token.Auth (Token.set_accessToken t c) w in
      Token.auth_request (Token.set_accessToken t c) = Token.auth_request c
      /\ ReqHeader (Token.auth_request c) !! "Authorization" = None
      /\ a'.1.1 = a.1.1 /\ a'.2 = a.2
      /\ match a.1.1 with
         | inr _ => a'.1.2 = a.1.2
         | inl _ => a'.1.2 = Token.set_accessToken t c /\ a.1.2 = c
         end)
  /\ (forall (c : Cookie.ApiClient) (t : string) (w : World),
         let a := Cookie.Auth c w in
         let a' := Cookie.Auth (Cookie.set_cookie t c) w in
         Cookie.auth_request (Cookie.set_cookie t c) = Cookie.auth_request c
         /\ ReqHeader (Cookie.auth_request c) !! "Cookie" = None
         /\ a'.1.1 = a.1.1 /\ a'.2 = a.2
         /\ match a.1.1 with
            | inr _ => a'.1.2 = a.1.2
            | inl _ => a'.1.2 = Cookie.set_cookie t c /\ a.1.2 = c
            end).
Proof.
  split.
  - intros c t w. cbv zeta. split; [reflexivity|].
    split; [unfold Token.auth_request, req_Header_Set, Header_Set; simpl;
            now rewrite !lookup_insert_ne by discriminate|].
    rewrite !Token_Auth_eq.
    change (Token.authURL (Token.set_accessToken t c)) with (Token.authURL c).
    change (Token.client (Token.set_accessToken t c)) with (Token.client c).
    change (Token.auth_request (Token.set_accessToken t c)) with (Token.auth_request c).
    destruct (NewRequest_err "POST" (Token.authURL c)); [simpl; auto|]. cbv zeta.
    destruct (RoundTrip _ _ _) as [?|resp]; [simpl; auto|].
    destruct (RespBody resp); [simpl; auto|].
    destruct (json_Unmarshal _) as [?|sso]; [simpl; auto|].
    destruct (negb (String.eqb _ _)); [simpl; auto|].
    destruct (negb (_ =? _)); simpl; auto.
  - intros c t w. cbv zeta. split; [reflexivity|].
    split; [unfold Cookie.auth_request, req_Header_Set, Header_Set; simpl;
            now rewrite !lookup_insert_ne by discriminate|].
    rewrite !Cookie_Auth_eq.
    change (Cookie.Url (Cookie.set_cookie t c)) with (Cookie.Url c).
    change (Cookie.client (Cookie.set_cookie t c)) with (Cookie.client c).
    change (Cookie.auth_request (Cookie.set_cookie t c)) with (Cookie.auth_request c).
    destruct (NewRequest_err "HEAD" (Cookie.Url c)); [simpl; auto|]. cbv zeta.
    destruct (RoundTrip _ _ _) as [?|resp]; [simpl; auto|].
    destruct (negb (_ =? _)); simpl; auto.
Qed.

(** The token client's [Auth] succeeds exactly when [http.NewRequest]
    accepts the SSO URL, the transport delivers a response, its body can be
    read and is JSON, its [error] field is empty and its status is 200.  A
    body that cannot be read, or that is not JSON, is the error reported
    whatever the HTTP status; a rejected URL fails before anything is
    sent. *)
Theorem Token_Auth_succeeds_iff (c : Token.Client) (w : World) :
  let out := Token.Auth c w in
  let w1 := mkWorld (issued w ++ [Token.auth_request c])%list (S (auths w)) in
  ((exists u, out.1.1 = inr u)
   <-> NewRequest_err "POST" (Token.authURL c) = None
       /\ exists resp body sso,
           RoundTrip (Token.client c) (issued w) (Token.auth_request c) = inr resp
           /\ StatusCode resp = 200
           /\ RespBody resp = inr body
           /\ json_Unmarshal body = inr sso
           /\ SsoError sso = EmptyString)
  /\ (forall m, NewRequest_err "POST" (Token.authURL c) = Some m ->
                out = (inl (NewRequestError m), c, mkWorld (issued w) (S (auths w))))
  /\ (NewRequest_err "POST" (Token.authURL c) = None ->
      (forall m, RoundTrip (Token.client c) (issued w) (Token.auth_request c) = inl m ->
                 out = (inl (TransportError m), c, w1))
      /\ (forall resp,
             RoundTrip (Token.client c) (issued w) (Token.auth_request c) = inr resp ->
             (forall m, RespBody resp = inl m -> out = (inl (ReadError m), c, w1))
             /\ (forall body m, RespBody resp = inr body -> json_Unmarshal body = inl m ->
                                out = (inl (JSONError m), c, w1)))).
Proof.
  cbv zeta. split; [|split].
  - split.
    + intros [u Hu].
      destruct (Token.Auth c w) as [[r c'] w'] eqn:EA. simpl in Hu. subst r.
      destruct (Token_Auth_success _ _ _ _ _ EA)
        as (resp & body & sso & E1 & E2 & E3 & E4 & E5 & E6 & _).
      split; [exact E1|]. exists resp, body, sso. auto.
    + intros (E1 & resp & body & sso & E2 & E3 & E4 & E5 & E6).
      rewrite Token_Auth_eq, E1. cbv zeta. rewrite E2, E4, E5, E6, E3. simpl. eauto.
  - intros m E1. now rewrite Token_Auth_eq, E1.
  - intros E1. rewrite Token_Auth_eq, E1. cbv zeta. split.
    + intros m E2. now rewrite E2.
    + intros resp E2. rewrite E2. split.
      * intros m E3. now rewrite E3.
      * intros body m E3 E4. now rewrite E3, E4.
Qed.

(** The cookie client's [Auth] succeeds exactly when [http.NewRequest]
    accepts the base URL and the transport delivers a response with status
    200; it never reads the response body.  Every other status, other 2xx
    included, fails with [errors.New(resp.Status)] after the one request,
    leaving the client alone. *)
Theorem Cookie_Auth_succeeds_iff (c : Cookie.ApiClient) (w : World) :
  let out := Cookie.Auth c w in
  let w1 := mkWorld (issued w ++ [Cookie.auth_request c])%list (S (auths w)) in
  ((exists u, out.1.1 = inr u)
   <-> NewRequest_err "HEAD" (Cookie.Url c) = None
       /\ exists resp,
           RoundTrip (Cookie.client c) (issued w) (Cookie.auth_request c) = inr resp
           /\ StatusCode resp = 200)
  /\ (forall resp,
         NewRequest_err "HEAD" (Cookie.Url c) = None ->
         RoundTrip (Cookie.client c) (issued w) (Cookie.auth_request c) = inr resp ->
         StatusCode resp <> 200 ->
         out = (inl (ErrorsNew (Status resp)), c, w1)).
Proof.
  cbv zeta. split.
  - split.
    + intros [u Hu].
      destruct (Cookie.Auth c w) as [[r c'] w'] eqn:EA. simpl in Hu. subst r.
      destruct (Cookie_Auth_success _ _ _ _ _ EA) as (resp & E1 & E2 & E3 & _).
      split; [exact E1|]. exists resp. auto.
    + intros (E1 & resp & E2 & E3).
      rewrite Cookie_Auth_eq, E1. cbv zeta. rewrite E2, E3. simpl. eauto.
  - intros resp E1 E2 E3. rewrite Cookie_Auth_eq, E1. cbv zeta. rewrite E2.
    apply Z.eqb_neq in E3. now rewrite E3.
Qed.
End AuthFacts.

(** Witness for [Token_Auth_succeeds_iff]: a 500 with an HTML body is
    reported as the JSON error; a URL [http.NewRequest] rejects issues
    nothing. *)
Lemma Token_Auth_error_order_witness :
  @Token.Auth rt_500_html token_client0 world0
  = (inl (JSONError "invalid character '<' looking for beginning of value"),
     token_client0, mkWorld [@Token.auth_request rt_500_html token_client0] 1)
  /\ @Token.Auth rt_bad_url token_client0 world0
     = (inl (NewRequestError "invalid URL"), token_client0, mkWorld [] 1).
Proof.
  split.
  - destruct (@Token_Auth_succeeds_iff rt_500_html token_client0 world0) as (_ & _ & Hok).
    destruct (Hok eq_refl) as [_ Hresp].
    destruct (Hresp (resp_status 500 "500 Internal Server Error" "<html/>") eq_refl)
      as [_ Hjson].
    exact (Hjson _ _ eq_refl eq_refl).
  - destruct (@Token_Auth_succeeds_iff rt_bad_url token_client0 world0) as (_ & Hbad & _).
    exact (Hbad "invalid URL" eq_refl).
Defined.

(** Witness for [Cookie_Auth_succeeds_iff]: a 401 answer. *)
Lemma Cookie_Auth_status_witness :
  @Cookie.Auth rt_denied cookie_client0 world0
  = (inl (ErrorsNew "401 Unauthorized"), cookie_client0,
     mkWorld [@Cookie.auth_request rt_denied cookie_client0] 1).
Proof.
  refine (proj2 (@Cookie_Auth_succeeds_iff rt_denied cookie_client0 world0)
                resp_401 eq_refl eq_refl _).
  vm_compute. discriminate.
Defined.

(** ** Requests on the wire *)

Section FirstRequest.
Context `{GoRuntime}.

Lemma Token_SendRequest_first path method body (c : Token.Client) (w : World) :
  NewRequest_err method (Token.request_uri (Token.url c) path) = None ->
  issued (Token.SendRequest path method body c w).2 !! length (issued w)
  = Some (Token.api_request c path method body).
Proof.
  intros ENR.
  assert (Hpre : forall l : list Request,
             (issued w ++ Token.api_request c path method body :: l)%list
               !! length (issued w) = Some (Token.api_request c path method body)).
  { intros l. rewrite lookup_app_r by lia. now rewrite Nat.sub_diag. }
  rewrite SendRequest_eq, ENR. cbv zeta.
  destruct (RoundTrip (Token.client c) (issued w) _) as [?|r1]; [apply (Hpre [])|].
  destruct (StatusCode r1 =? 401).
  - set (w1 := mkWorld _ _).
    destruct (Token_Auth_world c w1) as [_ Hi].
    destruct (Token.Auth c w1) as [[[e|u] c2] w2] eqn:EA; simpl in Hi.
    + destruct (Token_finish_state r1 c2 w2) as [_ ->].
      destruct Hi as [->| ->]; [apply (Hpre [])|].
      simpl. rewrite <- app_assoc. apply Hpre.
    + destruct (sendRequest_false_world path method body c2 w2) as (_ & _ & Hj).
      cbv zeta in Hj.
      destruct Hj as [->| ->]; destruct Hi as [->| ->]; simpl;
        rewrite <- ?app_assoc; apply Hpre.
  - destruct (Token_finish_state r1 c
                (mkWorld (issued w ++ [Token.api_request c path method body])%list
                         (auths w))) as [_ ->].
    apply (Hpre []).
Qed.

Lemma Cookie_SendRequest_first path method body (c : Cookie.ApiClient) (w : World) :
  NewRequest_err method (Cookie.request_uri (Cookie.Url c) path) = None ->
  issued (Cookie.SendRequest path method body c w).2
  = (issued w ++ [Cookie.api_request c path method body])%list.
Proof.
  intros ENR. rewrite Cookie_SendRequest_eq, ENR. cbv zeta.
  destruct (RoundTrip _ _ _) as [?|resp]; [reflexivity|].
  destruct (300 <=? StatusCode resp); [reflexivity|].
  destruct (RespBody resp); reflexivity.
Qed.

(** C6. The request URI is the base URL and the path, each without its
    leading and trailing slashes, joined by one slash, and that URI is the
    URL of the request [SendRequest] hands to the transport, in both
    variants.  A path padded with any number of slashes on either side
    gives the same URI and the same run of [SendRequest], so [Get "/vms/"]
    and [Get "vms"] issue their GET to the same URI, the trimmed base URL
    followed by [/vms]. *)
Theorem C6_path_join_ignores_outer_slashes :
  (forall base path : string,
      exists (a b n m : nat),
        base = slashes a +:+ Trim base "/" +:+ slashes b
        /\ path = slashes n +:+ Trim path "/" +:+ slashes m
        /\ first_char (Trim path "/") <> Some "/"%char
        /\ last_char (Trim path "/") <> Some "/"%char
        /\ first_char (Trim base "/") <> Some "/"%char
        /\ last_char (Trim base "/") <> Some "/"%char
        /\ Token.request_uri base path = Trim base "/" +:+ "/" +:+ Trim path "/"
        /\ Cookie.request_uri base path = Trim base "/" +:+ "/" +:+ Trim path "/")
  /\ (forall (base path : string) (n m : nat),
         Token.request_uri base (slashes n +:+ path +:+ slashes m)
         = Token.request_uri base path
         /\ Cookie.request_uri base (slashes n +:+ path +:+ slashes m)
            = Cookie.request_uri base path)
  /\ (forall (path method : string) (body : option Reader) (n m : nat)
             (tc : Token.Client) (cc : Cookie.ApiClient) (w : World),
         URL (Token.api_request tc path method body) = Token.request_uri (Token.url tc) path
         /\ URL (Cookie.api_request cc path method body) = Cookie.request_uri (Cookie.Url cc) path
         /\ Token.SendRequest (slashes n +:+ path +:+ slashes m) method body tc w
            = Token.SendRequest path method body tc w
         /\ Cookie.SendRequest (slashes n +:+ path +:+ slashes m) method body cc w
            = Cookie.SendRequest path method body cc w)
  /\ (forall (tc : Token.Client) (cc : Cookie.ApiClient) (w : World),
         Token.Get "/vms/" tc w = Token.Get "vms" tc w
         /\ Cookie.Get "/vms/" cc w = Cookie.Get "vms" cc w
         /\ URL (Token.api_request tc "/vms/" "GET" None)
            = URL (Token.api_request tc "vms" "GET" None)
         /\ URL (Cookie.api_request cc "/vms/" "GET" None)
            = URL (Cookie.api_request cc "vms" "GET" None))
  /\ (forall (path method : string) (body : option Reader)
             (tc : Token.Client) (cc : Cookie.ApiClient) (w : World),
         match NewRequest_err method
                              (Trim (Token.url tc) "/" +:+ "/" +:+ Trim path "/") with
         | Some _ => issued (Token.SendRequest path method body tc w).2 = issued w
         | None =>
             exists req,
             issued (Token.SendRequest path method body tc w).2 !! length (issued w)
             = Some req
             /\ URL req = Trim (Token.url tc) "/" +:+ "/" +:+ Trim path "/"
         end
         /\ match NewRequest_err method
                                 (Trim (Cookie.Url cc) "/" +:+ "/" +:+ Trim path "/") with
            | Some _ => issued (Cookie.SendRequest path method body cc w).2 = issued w
            | None =>
                exists req,
                issued (Cookie.SendRequest path method body cc w).2
                = (issued w ++ [req])%list
                /\ URL req = Trim (Cookie.Url cc) "/" +:+ "/" +:+ Trim path "/"
            end)
  /\ (forall (tc : Token.Client) (cc : Cookie.ApiClient) (w : World),
         match NewRequest_err "GET" (Trim (Token.url tc) "/" +:+ "/vms") with
         | Some _ =>
             issued (Token.Get "/vms/" tc w).2 = issued w
             /\ issued (Token.Get "vms" tc w).2 = issued w
         | None =>
             exists req,
             issued (Token.Get "/vms/" tc w).2 !! length (issued w) = Some req
             /\ issued (Token.Get "vms" tc w).2 !! length (issued w) = Some req
             /\ Method req = "GET"
             /\ URL req = Trim (Token.url tc) "/" +:+ "/vms"
         end
         /\ match NewRequest_err "GET" (Trim (Cookie.Url cc) "/" +:+ "/vms") with
            | Some _ =>
                issued (Cookie.Get "/vms/" cc w).2 = issued w
                /\ issued (Cookie.Get "vms" cc w).2 = issued w
            | None =>
                exists req,
                issued (Cookie.Get "/vms/" cc w).2 = (issued w ++ [req])%list
                /\ issued (Cookie.Get "vms" cc w).2 = (issued w ++ [req])%list
                /\ Method req = "GET"
                /\ URL req = Trim (Cookie.Url cc) "/" +:+ "/vms"
            end).
Proof.
  split; [|split; [|split; [|split; [|split]]]].
  - intros base path.
    destruct (Trim_decompose base) as (a & b & Eb & Fb & Lb).
    destruct (Trim_decompose path) as (n & m & Ep & Fp & Lp).
    exists a, b, n, m. repeat split; assumption.
  - intros base path n m. unfold Token.request_uri, Cookie.request_uri.
    now rewrite Trim_pad.
  - intros path method body n m tc cc w.
    split; [reflexivity|]. split; [reflexivity|]. split.
    + apply Token_sendRequest_Trim, Trim_pad.
    + apply Cookie_SendRequest_Trim, Trim_pad.
  - intros tc cc w. split; [|split; [|split; reflexivity]].
    + apply Token_sendRequest_Trim. reflexivity.
    + apply Cookie_SendRequest_Trim. reflexivity.
  - intros path method body tc cc w. split.
    + change (Trim (Token.url tc) "/" +:+ "/" +:+ Trim path "/")
        with (Token.request_uri (Token.url tc) path).
      destruct (NewRequest_err method _) eqn:ENR.
      * now rewrite SendRequest_eq, ENR.
      * exists (Token.api_request tc path method body).
        split; [now apply Token_SendRequest_first | reflexivity].
    + change (Trim (Cookie.Url cc) "/" +:+ "/" +:+ Trim path "/")
        with (Cookie.request_uri (Cookie.Url cc) path).
      destruct (NewRequest_err method _) eqn:ENR.
      * now rewrite Cookie_SendRequest_eq, ENR.
      * exists (Cookie.api_request cc path method body).
        split; [now apply Cookie_SendRequest_first | reflexivity].
  - intros tc cc w. split.
    + change (Trim (Token.url tc) "/" +:+ "/vms")
        with (Token.request_uri (Token.url tc) "vms").
      assert (EG : Token.Get "/vms/" tc w = Token.Get "vms" tc w)
        by (apply Token_sendRequest_Trim; reflexivity).
      rewrite EG. unfold Token.Get.
      destruct (NewRequest_err "GET" _) eqn:ENR.
      * now rewrite SendRequest_eq, ENR.
      * exists (Token.api_request tc "vms" "GET" None).
        split; [now apply Token_SendRequest_first|].
        split; [now apply Token_SendRequest_first|]. split; reflexivity.
    + change (Trim (Cookie.Url cc) "/" +:+ "/vms")
        with (Cookie.request_uri (Cookie.Url cc) "vms").
      assert (EG : Cookie.Get "/vms/" cc w = Cookie.Get "vms" cc w)
        by (apply Cookie_SendRequest_Trim; reflexivity).
      rewrite EG. unfold Cookie.Get.
      destruct (NewRequest_err "GET" _) eqn:ENR.
      * now rewrite Cookie_SendRequest_eq, ENR.
      * exists (Cookie.api_request cc "vms" "GET" None).
        split; [now apply Cookie_SendRequest_first|].
        split; [now apply Cookie_SendRequest_first|]. split; reflexivity.
Qed.

(** When [http.NewRequest] accepts it, the first request [SendRequest]
    issues has the caller's method (GET when the caller passes the empty
    method, as [http.NewRequest] builds it) and body, the joined URI, and exactly
    three headers, each with one value: the token client sends
    [Content-Type], [Accept] and [Authorization: Bearer] with the token it
    holds; the cookie client sends [Content-Type], [Prefer] and [Cookie]
    with the cookie it holds, and no [Authorization] header, so it does not
    send the password again.  When [http.NewRequest] rejects the request,
    nothing is issued. *)
Theorem SendRequest_first_request (path method : string) (body : option Reader) :
  (forall (c : Token.Client) (w : World),
      let out := Token.SendRequest path method body c w in
      match NewRequest_err method (Token.request_uri (Token.url c) path) with
      | Some _ => issued out.2 = issued w
      | None =>
          exists req,
          issued out.2 !! length (issued w) = Some req
          /\ Method req = (if String.eqb method "" then "GET" else method)
          /\ URL req = Trim (Token.url c) "/" +:+ "/" +:+ Trim path "/"
          /\ ReqBody req = body
          /\ dom (ReqHeader req) = {["Content-Type"; "Accept"; "Authorization"]}
          /\ ReqHeader req !! "Content-Type" = Some ["application/xml"]
          /\ ReqHeader req !! "Accept" = Some ["application/xml"]
          /\ ReqHeader req !! "Authorization" = Some ["Bearer " +:+ Token.accessToken c]
      end)
  /\ (forall (c : Cookie.ApiClient) (w : World),
         let out := Cookie.SendRequest path method body c w in
         match NewRequest_err method (Cookie.request_uri (Cookie.Url c) path) with
         | Some _ => issued out.2 = issued w
         | None =>
             exists req,
             issued out.2 = (issued w ++ [req])%list
             /\ Method req = (if String.eqb method "" then "GET" else method)
             /\ URL req = Trim (Cookie.Url c) "/" +:+ "/" +:+ Trim path "/"
             /\ ReqBody req = body
             /\ dom (ReqHeader req) = {["Content-Type"; "Prefer"; "Cookie"]}
             /\ ReqHeader req !! "Content-Type" = Some ["application/xml"]
             /\ ReqHeader req !! "Prefer" = Some ["persistent-auth"]
             /\ ReqHeader req !! "Cookie" = Some [Cookie.cookie c]
             /\ ReqHeader req !! "Authorization" = None
         end).
Proof.
  split.
  - intros c w. cbv zeta.
    destruct (NewRequest_err method _) eqn:ENR.
    + now rewrite SendRequest_eq, ENR.
    + exists (Token.api_request c path method body).
      split; [now apply Token_SendRequest_first|].
      unfold Token.api_request, req_Header_Set, req_Header_Add, Header_Set, Header_Add.
      simpl. repeat split;
        first [ now simplify_map_eq
              | rewrite !dom_insert_L, dom_empty_L; set_solver ].
  - intros c w. cbv zeta.
    destruct (NewRequest_err method _) eqn:ENR.
    + now rewrite Cookie_SendRequest_eq, ENR.
    + exists (Cookie.api_request c path method body).
      split; [now apply Cookie_SendRequest_first|].
      unfold Cookie.api_request, req_Header_Set, req_Header_Add, Header_Set, Header_Add.
      simpl. repeat split;
        first [ now simplify_map_eq
              | rewrite !dom_insert_L, dom_empty_L; set_solver ].
Qed.

(** The cookie the client sends is the one the server set.  After a
    successful [NewClient] the stored cookie is the text of the first
    [Set-Cookie] value up to its first [;] (the whole value when it has
    none, the empty string when the header is absent); it contains no [;],
    later [Set-Cookie] values are ignored, and [Get] sends it back as the
    [Cookie] header together with [Prefer: persistent-auth]. *)
Theorem Cookie_session_cookie_round_trip
        (u usr pw : string) (ins : bool) (w w' : World) (c : Cookie.ApiClient) :
  Cookie.NewClient u usr pw ins w = ((Some c, None), w') ->
  let c0 := Cookie.mkApiClient u usr pw defaultLogger false EmptyString
                               (mkHttpClient ins) in
  (Cookie.Url c = u /\ Cookie.Username c = usr /\ Cookie.Password c = pw
   /\ Cookie.client c = mkHttpClient ins)
  /\ exists resp,
      RoundTrip (mkHttpClient ins) (issued w) (Cookie.auth_request c0) = inr resp
      /\ cutset_mem ";" (Cookie.cookie c) = false
      /\ (Header_Get "Set-Cookie" (RespHeader resp) = Cookie.cookie c
          \/ exists rest, Header_Get "Set-Cookie" (RespHeader resp)
                          = Cookie.cookie c +:+ ";" +:+ rest)
      /\ (forall v vs, RespHeader resp !! "Set-Cookie" = Some (v :: vs) ->
                       Header_Get "Set-Cookie" (RespHeader resp) = v)
      /\ (RespHeader resp !! "Set-Cookie" = None -> Cookie.cookie c = EmptyString)
      /\ (forall (path : string) (w2 : World),
             NewRequest_err "GET" (Cookie.request_uri u path) = None ->
             exists req,
               issued (Cookie.Get path c w2).2 = (issued w2 ++ [req])%list
               /\ ReqHeader req !! "Cookie" = Some [Cookie.cookie c]
               /\ ReqHeader req !! "Prefer" = Some ["persistent-auth"]).
Proof.
  unfold Cookie.NewClient. cbv zeta.
  set (c0 := Cookie.mkApiClient u usr pw defaultLogger false EmptyString (mkHttpClient ins)).
  destruct (Cookie.Auth c0 w) as [[[e|t] c1] w1] eqn:EA; [discriminate|].
  intros [= -> ->].
  destruct (Cookie_Auth_success _ _ _ _ _ EA) as (resp & _ & E2 & _ & -> & _).
  split; [simpl; auto|].
  exists resp. split; [exact E2|].
  set (h := Header_Get "Set-Cookie" (RespHeader resp)).
  destruct (Split_head h ";") as (x & xs & ES & Hx & Hs).
  simpl. rewrite ES. simpl.
  split; [exact Hx|]. split; [|split; [|split]].
  - destruct Hs as [->|(rest & ->)]; [left; reflexivity|]. right. exists rest. reflexivity.
  - intros v vs Ev. unfold h, Header_Get. now rewrite Ev.
  - intros Ev. assert (Eh : h = EmptyString) by (unfold h, Header_Get; now rewrite Ev).
    rewrite Eh in ES. simpl in ES. now injection ES as <- _.
  - intros path w2 ENR.
    set (cx := Cookie.set_cookie x c0).
    exists (Cookie.api_request cx path "GET" None).
    split; [apply Cookie_SendRequest_first; exact ENR|].
    unfold Cookie.api_request, req_Header_Set, req_Header_Add, Header_Set, Header_Add.
    simpl. split; now simplify_map_eq.
Qed.
End FirstRequest.

(** Witness for [Cookie_session_cookie_round_trip]: two [Set-Cookie]
    values, the first with attributes, and a body that cannot be read. *)
Lemma Cookie_session_cookie_witness :
  exists c w',
    @Cookie.NewClient rt_200_unreadable "https://engine.example.com/ovirt-engine/api/"
                      "admin@internal" "secret" true world0 = ((Some c, None), w')
    /\ Cookie.cookie c = "JSESSIONID=xyz"
    /\ cutset_mem ";" (Cookie.cookie c) = false.
Proof.
  eexists _, _. split; [vm_compute; reflexivity|]. split; [reflexivity|].
  destruct (@Cookie_session_cookie_round_trip rt_200_unreadable
              "https://engine.example.com/ovirt-engine/api/" "admin@internal" "secret"
              true world0 _ _ eq_refl) as (_ & resp & _ & Hno & _).
  exact Hno.
Defined.

(** ** Paths and URLs *)

Lemma TrimLeft_fixed (s : string) :
  first_char s <> Some "/"%char -> TrimLeft s "/" = s.
Proof.
  destruct s as [|c s]; [reflexivity|]. simpl.
  destruct (Ascii.eqb c "/") eqn:Ec; [|reflexivity].
  apply Ascii.eqb_eq in Ec as ->. intros Hf. now contradiction Hf.
Qed.

Lemma Trim_fixed (s : string) :
  first_char s <> Some "/"%char -> last_char s <> Some "/"%char -> Trim s "/" = s.
Proof.
  intros Hf Hl. unfold Trim. rewrite TrimRight_fixed; [now apply TrimLeft_fixed|].
  destruct (last_char s) as [x|]; [|exact I]. simpl.
  destruct (Ascii.eqb x "/") eqn:Ex; [|reflexivity].
  apply Ascii.eqb_eq in Ex as ->. now contradiction Hl.
Qed.

Lemma Trim_idempotent (s : string) : Trim (Trim s "/") "/" = Trim s "/".
Proof.
  destruct (Trim_decompose s) as (n & m & _ & Hf & Hl). now apply Trim_fixed.
Qed.

Lemma TrimRight_cutset_only (t cutset : string) :
  all_in_cutset t cutset = true -> TrimRight t cutset = EmptyString.
Proof.
  induction t as [|c t IH]; [reflexivity|]. simpl.
  intros [Hc Ht]%andb_prop. now rewrite (IH Ht), Hc.
Qed.

(** The request URI at its edges, in both variants.  An empty path, or
    one made of slashes only, addresses the trimmed base URL followed by
    one slash.  A path that neither starts nor ends with a slash is joined
    as it is, slashes inside it kept.  Trimming the base URL and the path
    beforehand changes nothing. *)
Theorem request_uri_edge_cases :
  (forall (base : string) (n : nat),
      Token.request_uri base (slashes n) = Trim base "/" +:+ "/"
      /\ Cookie.request_uri base (slashes n) = Trim base "/" +:+ "/")
  /\ (forall base path : string,
         first_char path <> Some "/"%char -> last_char path <> Some "/"%char ->
         Token.request_uri base path = Trim base "/" +:+ "/" +:+ path
         /\ Cookie.request_uri base path = Trim base "/" +:+ "/" +:+ path)
  /\ (forall base path : string,
         Token.request_uri (Trim base "/") (Trim path "/") = Token.request_uri base path
         /\ Cookie.request_uri (Trim base "/") (Trim path "/")
            = Cookie.request_uri base path).
Proof.
  split; [|split].
  - intros base n. unfold Token.request_uri, Cookie.request_uri.
    assert (E : Trim (slashes n) "/" = EmptyString)
      by (unfold Trim; now rewrite TrimRight_slashes).
    now rewrite E.
  - intros base path Hf Hl. unfold Token.request_uri, Cookie.request_uri.
    now rewrite (Trim_fixed path Hf Hl).
  - intros base path. unfold Token.request_uri, Cookie.request_uri.
    now rewrite !Trim_idempotent.
Qed.

(** Witness for [request_uri_edge_cases]: a path with inner slashes. *)
Lemma request_uri_inner_slashes_witness :
  Token.request_uri "https://engine.example.com/ovirt-engine/api/" "vms/123/nics"
  = "https://engine.example.com/ovirt-engine/api/vms/123/nics".
Proof.
  refine (proj1 (proj1 (proj2 request_uri_edge_cases)
                       "https://engine.example.com/ovirt-engine/api/" "vms/123/nics" _ _)).
  - simpl. discriminate.
  - simpl. discriminate.
Defined.

Section SSOEndpoint.
Context `{GoRuntime}.

(** Where the base URL is some [base] followed only by characters among
    [/], [a], [p], [i] (as in [base/api/], [base/api] or [base/]) and
    [base] itself does not end in one of these four, [Auth] posts to
    [base/sso/oauth/token]. *)
Theorem Token_Auth_posts_to_the_SSO_endpoint
        (c : Token.Client) (w : World) (base t : string) :
  Token.url c = base +:+ t ->
  all_in_cutset t "/api/" = true ->
  match last_char base with
  | Some x => cutset_mem x "/api/" = false
  | None => True
  end ->
  Token.authURL c = base +:+ "/sso/oauth/token"
  /\ (NewRequest_err "POST" (base +:+ "/sso/oauth/token") = None ->
      exists req,
        issued (Token.Auth c w).2 = (issued w ++ [req])%list
        /\ Method req = "POST"
        /\ URL req = base +:+ "/sso/oauth/token").
Proof.
  intros Eu Ht Hl.
  assert (EA : Token.authURL c = base +:+ "/sso/oauth/token").
  { unfold Token.authURL. rewrite Eu.
    rewrite (proj2 (TrimRight_all_in_cutset t "/api/") (TrimRight_cutset_only _ _ Ht)).
    now rewrite TrimRight_fixed. }
  split; [exact EA|].
  intros ENR. exists (Token.auth_request c).
  split; [|split; [reflexivity|exact EA]].
  rewrite Token_Auth_eq, EA, ENR. cbv zeta.
  destruct (RoundTrip _ _ _) as [?|resp]; [reflexivity|].
  destruct (RespBody resp); [reflexivity|].
  destruct (json_Unmarshal _) as [?|sso]; [reflexivity|].
  destruct (negb (String.eqb _ _)); [reflexivity|].
  destruct (negb (_ =? _)); reflexivity.
Qed.
End SSOEndpoint.

(** Witness for [Token_Auth_posts_to_the_SSO_endpoint]: the usual
    [.../ovirt-engine/api/]. *)
Lemma Token_Auth_SSO_endpoint_witness :
  Token.authURL token_client0
  = "https://engine.example.com/ovirt-engine/sso/oauth/token".
Proof.
  refine (proj1 (@Token_Auth_posts_to_the_SSO_endpoint rt_auth_200 token_client0 world0
                   "https://engine.example.com/ovirt-engine" "/api/" _ _ _)).
  - reflexivity.
  - reflexivity.
  - reflexivity.
Defined.

(** ** Construction options *)

Section Options.
Context `{GoRuntime}.
Import Token.

Lemma options_fold (opts : list ClientOption) :
  Forall built_option opts ->
  forall c0 : Client,
    let c1 := fold_left (fun c o => o c) opts c0 in
    url c1 = url c0 /\ username c1 = username c0 /\ password c1 = password c0
    /\ accessToken c1 = accessToken c0
    /\ (debug c1 = true <-> debug c0 = true \/ Exists (fun o => o = WithDebug) opts)
    /\ (InsecureSkipVerify (client c1) = true
        <-> InsecureSkipVerify (client c0) = true
            \/ Exists (fun o => o = WithInsecure) opts)
    /\ ((forall l, ~ In (WithLogger l) opts) -> logger c1 = logger c0).
Proof.
  induction 1 as [|o opts Ho _ IH]; intros c0; cbv zeta.
  - simpl. repeat split; auto; try (intros [?|HE]; [assumption|inversion HE]).
  - simpl. destruct (IH (o c0)) as (Eu & En & Ep & Et & Hd & Hi & Hlog). clear IH.
    assert (Hf : url (o c0) = url c0 /\ username (o c0) = username c0
                 /\ password (o c0) = password c0 /\ accessToken (o c0) = accessToken c0)
      by (destruct Ho as [->|[->|[l ->]]]; simpl; auto).
    assert (Hd1 : debug (o c0) = true -> debug c0 = true \/ o = WithDebug)
      by (destruct Ho as [->|[->|[l ->]]]; simpl; auto).
    assert (Hd2 : debug c0 = true -> debug (o c0) = true)
      by (destruct Ho as [->|[->|[l ->]]]; simpl; auto).
    assert (Hi1 : InsecureSkipVerify (client (o c0)) = true ->
                  InsecureSkipVerify (client c0) = true \/ o = WithInsecure)
      by (destruct Ho as [->|[->|[l ->]]]; simpl; auto).
    assert (Hi2 : InsecureSkipVerify (client c0) = true ->
                  InsecureSkipVerify (client (o c0)) = true)
      by (destruct Ho as [->|[->|[l ->]]]; simpl; auto).
    assert (Hl1 : (forall l, o <> WithLogger l) -> logger (o c0) = logger c0).
    { intros Hn. destruct Ho as [->|[->|[l ->]]]; simpl; auto. now contradiction (Hn l). }
    destruct Hf as (Fu & Fn & Fp & Ft).
    split; [congruence|]. split; [congruence|]. split; [congruence|].
    split; [congruence|]. split; [|split].
    + rewrite Hd, Exists_cons. split.
      * intros [Hx|Hx]; [destruct (Hd1 Hx); auto|auto].
      * intros [Hx|[->|Hx]]; auto.
    + rewrite Hi, Exists_cons. split.
      * intros [Hx|Hx]; [destruct (Hi1 Hx); auto|auto].
      * intros [Hx|[->|Hx]]; auto.
    + intros Hn. rewrite Hlog.
      * apply Hl1. intros l ->. apply (Hn l). now left.
      * intros l Hin. apply (Hn l). now right.
Qed.

(** With options built by [WithInsecure], [WithDebug] and [WithLogger], in
    any number and order, the client [NewClient] returns has the URL, user
    name and password it was given; it skips TLS verification exactly when
    [WithInsecure] is among the options, has debug on exactly when
    [WithDebug] is, and logs to the logger of the last [WithLogger], the
    default logger when there is none. *)
Theorem Token_NewClient_options
        (u usr pw : string) (opts : list ClientOption) (w : World) (c : Client) :
  Forall built_option opts ->
  (NewClient u usr pw opts w).1.1 = Some c ->
  url c = u /\ username c = usr /\ password c = pw
  /\ (debug c = true <-> Exists (fun o => o = WithDebug) opts)
  /\ (InsecureSkipVerify (client c) = true <-> Exists (fun o => o = WithInsecure) opts)
  /\ ((forall l, ~ In (WithLogger l) opts) -> logger c = defaultLogger)
  /\ (forall l pre post,
         opts = (pre ++ WithLogger l :: post)%list ->
         (forall l', ~ In (WithLogger l') post) ->
         logger c = l).
Proof.
  intros Hopts. unfold NewClient. cbv zeta.
  set (c0 := mkClient u usr pw defaultLogger false EmptyString (mkHttpClient false)).
  set (c1 := fold_left (fun c o => o c) opts c0).
  destruct (Auth c1 w) as [[[e|t] c2] w2] eqn:EA; [discriminate|].
  simpl. intros [= ->].
  destruct (Token_Auth_success _ _ _ _ _ EA)
    as (resp & bd & sso & _ & _ & _ & _ & _ & _ & -> & _).
  destruct (options_fold opts Hopts c0) as (Eu & En & Ep & _ & Hd & Hi & Hlog).
  fold c1 in Eu, En, Ep, Hd, Hi, Hlog. simpl in *.
  split; [exact Eu|]. split; [exact En|]. split; [exact Ep|].
  split; [|split; [|split]].
  - rewrite Hd. split; [intros [?|?]; [discriminate|assumption] | auto].
  - rewrite Hi. split; [intros [?|?]; [discriminate|assumption] | auto].
  - exact Hlog.
  - intros l pre post Eo Hn.
    assert (Hpost : Forall built_option post).
    { rewrite Eo in Hopts. apply Forall_app in Hopts as [_ Hp]. now inversion Hp. }
    unfold c1. rewrite Eo, fold_left_app.
    destruct (options_fold post Hpost (WithLogger l (fold_left (fun c o => o c) pre c0)))
      as (_ & _ & _ & _ & _ & _ & Hl).
    exact (Hl Hn).
Qed.
End Options.

(** Witness for [Token_NewClient_options]: two loggers, debug, and no
    [WithInsecure]. *)
Lemma Token_NewClient_options_witness :
  exists c,
    (@Token.NewClient rt_auth_200 "https://engine.example.com/ovirt-engine/api/"
                      "admin@internal" "secret"
                      [Token.WithLogger (customLogger 1); Token.WithDebug;
                       Token.WithLogger (customLogger 2)] world0).1.1 = Some c
    /\ Token.logger c = customLogger 2
    /\ Token.url c = "https://engine.example.com/ovirt-engine/api/".
Proof.
  eexists. split; [vm_compute; reflexivity|].
  assert (Hb : Forall Token.built_option
                      [Token.WithLogger (customLogger 1); Token.WithDebug;
                       Token.WithLogger (customLogger 2)]).
  { constructor; [right; right; eexists; reflexivity|].
    constructor; [right; left; reflexivity|].
    constructor; [right; right; eexists; reflexivity|]. constructor. }
  destruct (@Token_NewClient_options rt_auth_200
              "https://engine.example.com/ovirt-engine/api/" "admin@internal" "secret"
              _ world0 _ Hb eq_refl) as (Hu & _ & _ & _ & _ & _ & Hlast).
  split; [|exact Hu].
  apply (Hlast (customLogger 2) [Token.WithLogger (customLogger 1); Token.WithDebug] []).
  - reflexivity.
  - intros l' [].
Defined.

(** ** Remaining exits *)

Section RemainingExits.
Context `{GoRuntime}.

(** The cookie client's [SendRequest] outside the status error: a request
    [http.NewRequest] rejects is reported without anything being sent; a
    transport error is reported after the one request; any status below
    300 returns the body read from the response, or the read error.  The
    client is the same afterwards in every case. *)
Theorem Cookie_SendRequest_outcome
        (path method : string) (body : option Reader) (c : Cookie.ApiClient) (w : World) :
  let out := Cookie.SendRequest path method body c w in
  let req := Cookie.api_request c path method body in
  let w1 := mkWorld (issued w ++ [req])%list (auths w) in
  (forall m, NewRequest_err method (Cookie.request_uri (Cookie.Url c) path) = Some m ->
             out = (inl (NewRequestError m), c, w))
  /\ (NewRequest_err method (Cookie.request_uri (Cookie.Url c) path) = None ->
      (forall m, RoundTrip (Cookie.client c) (issued w) req = inl m ->
                 out = (inl (TransportError m), c, w1))
      /\ (forall resp, RoundTrip (Cookie.client c) (issued w) req = inr resp ->
                       StatusCode resp < 300 ->
                       out = (match RespBody resp with
                              | inl m => inl (ReadError m)
                              | inr b => inr b
                              end, c, w1))).
Proof.
  cbv zeta. rewrite Cookie_SendRequest_eq. split.
  - intros m E1. now rewrite E1.
  - intros E1. rewrite E1. cbv zeta. split.
    + intros m E2. now rewrite E2.
    + intros resp E2 Hs. rewrite E2. apply Z.leb_gt in Hs. rewrite Hs.
      destruct (RespBody resp); reflexivity.
Qed.

(** Construction costs one authentication round trip, in both variants:
    [NewClient] enters [Auth] once and issues the authentication request
    of the client it built and nothing else; when [http.NewRequest]
    rejects the URL it issues nothing and returns that error with no
    client. *)
Theorem NewClient_one_round_trip :
  (forall (u usr pw : string) (opts : list Token.ClientOption) (w : World),
      let out := Token.NewClient u usr pw opts w in
      let c0 := fold_left (fun c o => o c) opts
                          (Token.mkClient u usr pw defaultLogger false
                                          EmptyString (mkHttpClient false)) in
      auths out.2 = S (auths w)
      /\ match NewRequest_err "POST" (Token.authURL c0) with
         | Some m => issued out.2 = issued w /\ out.1 = (None, Some (NewRequestError m))
         | None => issued out.2 = (issued w ++ [Token.auth_request c0])%list
         end)
  /\ (forall (u usr pw : string) (ins : bool) (w : World),
         let out := Cookie.NewClient u usr pw ins w in
         let c0 := Cookie.mkApiClient u usr pw defaultLogger false
                                      EmptyString (mkHttpClient ins) in
         auths out.2 = S (auths w)
         /\ match NewRequest_err "HEAD" u with
            | Some m => issued out.2 = issued w /\ out.1 = (None, Some (NewRequestError m))
            | None => issued out.2 = (issued w ++ [Cookie.auth_request c0])%list
            end).
Proof.
  split.
  - intros u usr pw opts w. unfold Token.NewClient. cbv zeta.
    match goal with |- context [Token.Auth ?c w] => set (c0 := c) end.
    rewrite Token_Auth_eq.
    destruct (NewRequest_err "POST" (Token.authURL c0)); [simpl; auto|]. cbv zeta.
    destruct (RoundTrip _ _ _) as [?|resp]; [simpl; auto|].
    destruct (RespBody resp); [simpl; auto|].
    destruct (json_Unmarshal _) as [?|sso]; [simpl; auto|].
    destruct (negb (String.eqb _ _)); [simpl; auto|].
    destruct (negb (_ =? _)); simpl; auto.
  - intros u usr pw ins w. unfold Cookie.NewClient. cbv zeta.
    match goal with |- context [Cookie.Auth ?c w] => set (c0 := c) end.
    rewrite Cookie_Auth_eq.
    change (Cookie.Url c0) with u.
    destruct (NewRequest_err "HEAD" u); [simpl; auto|]. cbv zeta.
    destruct (RoundTrip _ _ _) as [?|resp]; [simpl; auto|].
    destruct (negb (_ =? _)); simpl; auto.
Qed.
End RemainingExits.

(** Witness for [Cookie_SendRequest_outcome]: a 204 with an empty body. *)
Lemma Cookie_SendRequest_outcome_witness :
  (@Cookie.SendRequest (scripted [inr (resp_status 204 "204 No Content" "")] sso_ok)
                       "/vms/42" "DELETE" None cookie_client0 world0).1
  = (inr [], cookie_client0).
Proof.
  destruct (@Cookie_SendRequest_outcome
              (scripted [inr (resp_status 204 "204 No Content" "")] sso_ok)
              "/vms/42" "DELETE" None cookie_client0 world0) as [_ Hok].
  destruct (Hok eq_refl) as [_ Hresp].
  rewrite (Hresp (resp_status 204 "204 No Content" "") eq_refl); [reflexivity|].
  vm_compute. reflexivity.
Defined.
